(** * mcp-text-editor: the tool handlers of [server.py]

    A shallow embedding of the five tool handlers of
    [src/mcp_text_editor/server.py] (get, edit, create, append, delete) and
    of the contract they rely on.  The handlers are Python coroutines that
    validate a request, talk to a [TextEditor] object and to [os.path], and
    either return a JSON document or raise [RuntimeError].

    - A request is the [arguments] dictionary.  Its top-level keys are fixed
      by the tool's input schema, so every handler gets a record whose
      fields are options: [None] is "the key is absent", which is what the
      source tests with ["key" not in arguments].  Patches and ranges are
      the dictionaries the source indexes and builds: [gmap string pyval].
    - Effects are explicit: a handler is a function from a [world] (the
      files on disk and the trace of the calls by which the handler reached
      for the disk) to an outcome and a new world.  Python exceptions are
      the left summand of the outcome.  A handler returns the value it
      passes to [json.dumps]; the serialisation itself is left out.
    - [TextEditor] is the class of [text_editor.py].  The handlers are
      parametric in an editor; [Module SpecEditor] is the editor the
      specification describes. *)

From Stdlib Require Import ZArith String Ascii List Lia.
From stdpp Require Import base option gmap strings list fin_maps.

Local Open Scope string_scope.
Local Open Scope Z_scope.

(** ** Python values and exceptions *)

(** The scalar JSON values that occur as fields of patches, ranges and
    results: [None], integers and strings. *)
Inductive pyval : Type :=
| PyNone
| PyInt (n : Z)
| PyStr (s : string).

#[global] Instance pyval_eq_dec : EqDecision pyval.
Proof. solve_decision. Defined.

(** A Python [dict] with string keys and scalar values. *)
Abbreviation pydict := (gmap string pyval).

(** The exceptions that reach the handlers.  [EditorError] stands for any
    other subclass of [Exception] the editor may raise; it carries the class
    name and the text [str(e)] gives. *)
Inductive exn : Type :=
| RuntimeError (msg : string)
| KeyError (key : string)
| EditorError (cls msg : string).

#[global] Instance exn_eq_dec : EqDecision exn.
Proof. solve_decision. Defined.

(** [str(e)].  For a [KeyError] Python prints the [repr] of the key; the
    keys looked up in this file are identifiers, whose [repr] is the key
    between single quotes. *)
Definition str (e : exn) : string :=
  match e with
  | RuntimeError msg => msg
  | KeyError key => "'" +:+ key +:+ "'"
  | EditorError _ msg => msg
  end.

(** The line feed, ["\n"]. *)
Definition LF : string := String (ascii_of_nat 10) EmptyString.

(** [s.endswith(suffix)] *)
Definition endswith (s suffix : string) : bool :=
  let n := String.length s in
  let k := String.length suffix in
  (k <=? n)%nat && String.eqb (substring (n - k) k s) suffix.

(** [os.path.isabs] of [posixpath]: the path starts with a slash. *)
Definition isabs (path : string) : bool :=
  match path with
  | String c _ => Ascii.eqb c "/"
  | EmptyString => false
  end.

(** ** Requests *)

(** One entry of [arguments["files"]] of the read tool. *)
Record FileInfo : Type := {
  fi_file_path : option string;
  fi_ranges : option (list pydict)
}.

Record get_arguments : Type := {
  ga_files : option (list FileInfo);
  ga_encoding : option string
}.

(** One entry of [arguments["files"]] of the edit tool. *)
Record FileOperation : Type := {
  fo_path : option string;
  fo_file_hash : option string;
  fo_patches : option (list pydict)
}.

Record edit_arguments : Type := {
  ea_files : option (list FileOperation);
  ea_encoding : option string
}.

Record create_arguments : Type := {
  ca_path : option string;
  ca_contents : option string;
  ca_encoding : option string
}.

Record append_arguments : Type := {
  aa_path : option string;
  aa_contents : option string;
  aa_file_hash : option string;
  aa_encoding : option string
}.

Record delete_arguments : Type := {
  da_file_path : option string;
  da_file_hash : option string;
  da_ranges : option (list pydict);
  da_encoding : option string
}.

(** ** The world *)

(** Every call by which a handler reaches the disk, with its arguments.
    The optional encoding of [ReadFileContents] is [None] when the call
    leaves the keyword out. *)
Inductive event : Type :=
| OsPathExists (path : string)
| ReadFileContents (path : string) (encoding : option string)
| EditFileContents (path expected_hash : string) (patches : list pydict)
    (encoding : string)
| ReadMultipleRanges (files : list FileInfo) (encoding : string).

(** The disk maps a path to the text of the file stored there. *)
Record world : Type := {
  disk : gmap string string;
  trace : list event
}.

(** The world after one more call. *)
Definition log (ev : event) (w : world) : world :=
  {| disk := disk w; trace := trace w ++ [ev] |}.

(** ** Computations that may raise *)

(** A computation returns a value or raises, and leaves a world. *)
Definition M (A : Type) : Type := world -> (exn + A) * world.

#[global] Instance M_ret : MRet M := fun A (a : A) w => (inr a, w).

#[global] Instance M_bind : MBind M := fun A B (f : A -> M B) (m : M A) w =>
  match m w with
  | (inr a, w') => f a w'
  | (inl e, w') => (inl e, w')
  end.

(** [raise e] *)
Definition raise {A : Type} (e : exn) : M A := fun w => (inl e, w).

(** [try: body  except Exception as e: handler e] *)
Definition try_except {A : Type} (body : M A) (handler : exn -> M A) : M A :=
  fun w =>
    match body w with
    | (inl e, w') => handler e w'
    | (inr a, w') => (inr a, w')
    end.

(** [d[key]] *)
Definition getitem (d : pydict) (key : string) : M pyval :=
  match d !! key with
  | Some v => mret v
  | None => raise (KeyError key)
  end.

(** [os.path.exists(path)] *)
Definition os_path_exists (path : string) : M bool :=
  fun w => (inr (bool_decide (is_Some (disk w !! path))), log (OsPathExists path) w).

(** ** The editor the handlers drive *)

(** What [read_file_contents] returns:
    [(content, start, end, hash, total_lines, content_size)]. *)
Definition read_result : Type := string * Z * Z * string * Z * Z.

(** The three methods of [TextEditor] the handlers call.  Reading does not
    change the disk; editing may, also when it raises.  [RM] is the type of
    the document [read_multiple_ranges] returns, which the read tool hands
    on untouched. *)
Record TextEditor (RM : Type) : Type := {
  editor_read_file_contents :
    gmap string string -> string -> option string -> exn + read_result;
  editor_edit_file_contents :
    gmap string string -> string -> string -> list pydict -> string ->
    (exn + pydict) * gmap string string;
  editor_read_multiple_ranges :
    gmap string string -> list FileInfo -> string -> exn + RM
}.
Arguments editor_read_file_contents {RM} _ _ _ _.
Arguments editor_edit_file_contents {RM} _ _ _ _ _ _.
Arguments editor_read_multiple_ranges {RM} _ _ _ _.

(** The error entry the edit tool writes for a file. *)
Definition error_result (reason : string) (file_hash : pyval) : pydict :=
  <["result" := PyStr "error"]>
    (<["reason" := PyStr reason]> (<["file_hash" := file_hash]> ∅)).

(** The patch literal the create, append and delete tools build. *)
Definition make_patch (start end_ contents range_hash : pyval) : pydict :=
  <["start" := start]>
    (<["end" := end_]>
       (<["contents" := contents]> (<["range_hash" := range_hash]> ∅))).

Section Handlers.
Context {RM : Type} (editor : TextEditor RM).

(** [await self.editor.read_file_contents(path[, encoding=...])] *)
Definition read_file_contents (path : string) (encoding : option string)
  : M read_result :=
  fun w => (editor_read_file_contents editor (disk w) path encoding,
            log (ReadFileContents path encoding) w).

(** [await self.editor.edit_file_contents(path, hash, patches, encoding=...)] *)
Definition edit_file_contents (path expected_hash : string)
    (patches : list pydict) (encoding : string) : M pydict :=
  fun w =>
    let '(r, d) :=
      editor_edit_file_contents editor (disk w) path expected_hash patches encoding in
    (r, {| disk := d;
           trace := trace w ++ [EditFileContents path expected_hash patches encoding] |}).

(** [await self.editor.read_multiple_ranges(files, encoding=...)] *)
Definition read_multiple_ranges (files : list FileInfo) (encoding : string)
  : M RM :=
  fun w => (editor_read_multiple_ranges editor (disk w) files encoding,
            log (ReadMultipleRanges files encoding) w).

(** The last clause of every handler:
    [except Exception as e: raise RuntimeError(f"Error processing request: {str(e)}")] *)
Definition reraise {A : Type} (e : exn) : M A :=
  raise (RuntimeError ("Error processing request: " +:+ str e)).

(** *** [GetTextFileContentsHandler.run_tool] *)

(** The loop of lines 88-92. *)
Fixpoint get_check_paths (files : list FileInfo) : M unit :=
  match files with
  | [] => mret tt
  | file_info :: rest =>
      match fi_file_path file_info with
      | None => raise (KeyError "file_path")
      | Some p =>
          if negb (isabs p)
          then raise (RuntimeError ("File path must be absolute: " +:+ p))
          else get_check_paths rest
      end
  end.

Definition get_run_tool (arguments : get_arguments) : M RM :=
  try_except
    (match ga_files arguments with
     | None => raise (RuntimeError "Missing required argument: 'files'")
     | Some files =>
         get_check_paths files ;;
         let encoding := default "utf-8" (ga_encoding arguments) in
         result ← read_multiple_ranges files encoding;
         mret result
     end)
    (fun e =>
       match e with
       | KeyError _ =>
           raise (RuntimeError ("Missing required argument: '" +:+ str e +:+ "'"))
       | _ => reraise e
       end).

(** *** [EditTextFileContentsHandler.run_tool] *)

(** Lines 203-236: the [try] statement run for one file operation whose
    fields are present and whose path is absolute. *)
Definition edit_one (arguments : edit_arguments) (file_operation : FileOperation)
    (file_path file_hash : string) (patches : list pydict)
    (results : gmap string pydict) : M (gmap string pydict) :=
  try_except
    (match patches with
     | [] =>
         mret (<[file_path := error_result "Empty patches list" (PyStr file_hash)]> results)
     | _ =>
         let encoding := default "utf-8" (ea_encoding arguments) in
         result ← edit_file_contents file_path file_hash patches encoding;
         mret (<[file_path := result]> results)
     end)
    (fun e =>
       current_hash ←
         match fo_path file_operation with
         | Some file_path =>
             try_except
               ('(_, _, _, current_hash, _, _) ← read_file_contents file_path None;
                mret (PyStr current_hash))
               (fun _ => mret PyNone)
         | None => mret PyNone
         end;
       let key := match fo_path file_operation with
                  | Some _ => file_path
                  | None => "unknown"
                  end in
       mret (<[key := error_result (str e) current_hash]> results)).

(** Lines 188-236: the loop over the file operations. *)
Fixpoint edit_loop (arguments : edit_arguments) (files : list FileOperation)
    (results : gmap string pydict) : M (gmap string pydict) :=
  match files with
  | [] => mret results
  | file_operation :: rest =>
      match fo_path file_operation, fo_file_hash file_operation,
            fo_patches file_operation with
      | None, _, _ => raise (RuntimeError "Missing required field: path")
      | Some _, None, _ => raise (RuntimeError "Missing required field: file_hash")
      | Some _, Some _, None => raise (RuntimeError "Missing required field: patches")
      | Some path, Some file_hash, Some patches =>
          if negb (isabs path)
          then raise (RuntimeError ("File path must be absolute: " +:+ path))
          else
            results ← edit_one arguments file_operation path file_hash patches results;
            edit_loop arguments rest results
      end
  end.

Definition edit_run_tool (arguments : edit_arguments) : M (gmap string pydict) :=
  try_except
    (match ea_files arguments with
     | None => raise (RuntimeError "Missing required argument: files")
     | Some files =>
         let results : gmap string pydict := ∅ in
         if (length files =? 0)%nat
         then mret results
         else edit_loop arguments files results
     end)
    reraise.

(** *** [CreateTextFileHandler.run_tool] *)

Definition create_run_tool (arguments : create_arguments) : M pydict :=
  try_except
    (match ca_path arguments, ca_contents arguments with
     | None, _ => raise (RuntimeError "Missing required argument: path")
     | Some _, None => raise (RuntimeError "Missing required argument: contents")
     | Some file_path, Some contents =>
         if negb (isabs file_path)
         then raise (RuntimeError ("File path must be absolute: " +:+ file_path))
         else
           present ← os_path_exists file_path;
           if (present : bool)
           then raise (RuntimeError ("File already exists: " +:+ file_path))
           else
             let encoding := default "utf-8" (ca_encoding arguments) in
             result ← edit_file_contents file_path ""
                        [make_patch (PyInt 1) PyNone (PyStr contents) (PyStr "")]
                        encoding;
             mret result
     end)
    reraise.

(** *** [AppendTextFileContentsHandler.run_tool] *)

Definition append_run_tool (arguments : append_arguments) : M pydict :=
  try_except
    (match aa_path arguments, aa_contents arguments, aa_file_hash arguments with
     | None, _, _ => raise (RuntimeError "Missing required argument: path")
     | Some _, None, _ => raise (RuntimeError "Missing required argument: contents")
     | Some _, Some _, None => raise (RuntimeError "Missing required argument: file_hash")
     | Some file_path, Some contents, Some file_hash =>
         if negb (isabs file_path)
         then raise (RuntimeError ("File path must be absolute: " +:+ file_path))
         else
           present ← os_path_exists file_path;
           if negb present
           then raise (RuntimeError ("File does not exist: " +:+ file_path))
           else
             let encoding := default "utf-8" (aa_encoding arguments) in
             '(content, _, _, current_hash, total_lines, _) ←
               read_file_contents file_path (Some encoding);
             if negb (String.eqb current_hash file_hash)
             then raise (RuntimeError "File hash mismatch - file may have been modified")
             else
               let append_content :=
                 if negb (endswith contents LF) then contents +:+ LF else contents in
               result ← edit_file_contents file_path file_hash
                          [make_patch (PyInt (total_lines + 1)) PyNone
                             (PyStr append_content) (PyStr "")]
                          encoding;
               mret result
     end)
    reraise.

(** *** [DeleteTextFileContentsHandler.run_tool] *)

(** Lines 498-506: the list comprehension that builds the patches. *)
Fixpoint delete_patches (ranges : list pydict) : M (list pydict) :=
  match ranges with
  | [] => mret []
  | r :: rest =>
      start ← getitem r "start";
      end_ ← getitem r "end";
      range_hash ← getitem r "range_hash";
      patches ← delete_patches rest;
      mret (make_patch start end_ (PyStr "") range_hash :: patches)
  end.

Definition delete_run_tool (arguments : delete_arguments) : M pydict :=
  try_except
    (match da_file_path arguments, da_file_hash arguments, da_ranges arguments with
     | None, _, _ => raise (RuntimeError "Missing required argument: file_path")
     | Some _, None, _ => raise (RuntimeError "Missing required argument: file_hash")
     | Some _, Some _, None => raise (RuntimeError "Missing required argument: ranges")
     | Some file_path, Some file_hash, Some ranges =>
         if negb (isabs file_path)
         then raise (RuntimeError ("File path must be absolute: " +:+ file_path))
         else
           present ← os_path_exists file_path;
           if negb present
           then raise (RuntimeError ("File does not exist: " +:+ file_path))
           else
             let encoding := default "utf-8" (da_encoding arguments) in
             patches ← delete_patches ranges;
             result ← edit_file_contents file_path file_hash patches encoding;
             mret result
     end)
    reraise.

End Handlers.

(** ** The editor of the specification *)

Module SpecEditor.

Section Engine.

(** Modelled from the spec: the Hasher of [text_editor.py] (spec 4.1), a
    deterministic function from a content to its hash token. *)
Variable hash : string -> string.

(** Modelled from the spec: the line splitting of the File Reader (spec 3
    and 4.2).  Every line keeps its terminator; a trailing line without one
    is kept as it is. *)
Fixpoint split_lines_from (current s : string) : list string :=
  match s with
  | EmptyString => if String.eqb current "" then [] else [current]
  | String c rest =>
      if Ascii.eqb c (ascii_of_nat 10)
      then (current +:+ LF) :: split_lines_from "" rest
      else split_lines_from (current +:+ String c EmptyString) rest
  end.

(** Modelled from the spec: the [LineSequence] of a content (spec 3). *)
Definition split_lines (content : string) : list string :=
  split_lines_from "" content.

(** Modelled from the spec: the reconstruction of a content from its
    [LineSequence] (spec 3): the lines joined in order. *)
Definition join_lines (lines : list string) : string :=
  foldr String.append "" lines.

(** Modelled from the spec: [FileSnapshot] (spec 3), without the encoding:
    the disk of this development holds decoded text. *)
Record FileSnapshot : Type := {
  lines : list string;
  total_lines : Z;
  full_hash : string
}.

(** Modelled from the spec: [snapshot] (spec 4.2); [None] is
    [NotFoundError]. *)
Definition snapshot (d : gmap string string) (path : string) : option FileSnapshot :=
  match d !! path with
  | None => None
  | Some content =>
      let ls := split_lines content in
      Some {| lines := ls;
              total_lines := Z.of_nat (length ls);
              full_hash := hash (join_lines ls) |}
  end.

(** Modelled from the spec: the substring of the file a range spans
    (spec 3, [RangeResult]): the lines [start..end_], 1-based and
    inclusive, joined. *)
Definition range_content (ls : list string) (start end_ : Z) : string :=
  join_lines (take (Z.to_nat (end_ - start + 1)) (drop (Z.to_nat (start - 1)) ls)).

(** Modelled from the spec: [read_file_contents] of [text_editor.py], the
    File Reader's range query (spec 4.2) over the whole file, laid out as
    the tuple the handlers unpack:
    [(content, start, end, hash, total_lines, content_size)]. *)
Definition read_file_contents (d : gmap string string) (path : string)
    (encoding : option string) : exn + read_result :=
  match snapshot d path with
  | None => inl (EditorError "NotFoundError" path)
  | Some snap =>
      let content := range_content (lines snap) 1 (total_lines snap) in
      inr (content, 1, total_lines snap, hash content, total_lines snap,
           Z.of_nat (String.length content))
  end.

(** Modelled from the spec: [RangeResult] (spec 3) as a dictionary. *)
Definition range_result (snap : FileSnapshot) (start end_ : Z) : pydict :=
  let content := range_content (lines snap) start end_ in
  <["content" := PyStr content]>
    (<["start" := PyInt start]>
       (<["end" := PyInt end_]>
          (<["range_hash" := PyStr (hash content)]>
             (<["total_lines" := PyInt (total_lines snap)]>
                (<["content_size" := PyInt (Z.of_nat (String.length content))]> ∅))))).

(** Modelled from the spec: [read_ranges] of the File Reader on one
    [RangeSpec] (spec 4.2); [None] is [InvalidRangeError]. *)
Definition read_range (snap : FileSnapshot) (spec : pydict) : option pydict :=
  match spec !! "start", default PyNone (spec !! "end") with
  | Some (PyInt start), PyNone =>
      if (1 <=? start) && ((start <=? total_lines snap) || (total_lines snap =? 0))
      then Some (range_result snap start (total_lines snap))
      else None
  | Some (PyInt start), PyInt end_ =>
      if (1 <=? start) && ((start <=? total_lines snap) || (total_lines snap =? 0))
      then Some (range_result snap start (Z.min end_ (total_lines snap)))
      else None
  | _, _ => None
  end.

(** Modelled from the spec: the multi-file read of [text_editor.py]
    (spec 4.2): a mapping keyed by path whose entries are the range results
    of the file, or an error entry; one file's error does not stop the
    others. *)
Definition read_multiple_ranges (d : gmap string string) (files : list FileInfo)
    (encoding : string) : exn + gmap string (string + list pydict) :=
  inr (foldl
         (fun acc fi =>
            match fi_file_path fi with
            | None => acc
            | Some path =>
                match snapshot d path with
                | None => <[path := inl "NotFoundError"]> acc
                | Some snap =>
                    match mapM (read_range snap) (default [] (fi_ranges fi)) with
                    | None => <[path := inl "InvalidRangeError"]> acc
                    | Some rs => <[path := inr rs]> acc
                    end
                end
            end)
         ∅ files).

(** Modelled from the spec: [Patch] (spec 3). *)
Record Patch : Type := {
  p_start : Z;
  p_end : option Z;
  p_contents : string;
  p_range_hash : string
}.

(** Modelled from the spec: the typed [Patch] of a patch dictionary; a
    missing or ill-typed field is a malformed request (spec 7). *)
Definition decode_patch (p : pydict) : option Patch :=
  match p !! "start", p !! "end", p !! "contents", p !! "range_hash" with
  | Some (PyInt start), Some PyNone, Some (PyStr contents), Some (PyStr range_hash) =>
      Some {| p_start := start; p_end := None;
              p_contents := contents; p_range_hash := range_hash |}
  | Some (PyInt start), Some (PyInt end_), Some (PyStr contents), Some (PyStr range_hash) =>
      Some {| p_start := start; p_end := Some end_;
              p_contents := contents; p_range_hash := range_hash |}
  | _, _, _, _ => None
  end.

(** Modelled from the spec: the patch shapes of spec 4.3, step 3. *)
Inductive shape : Type := Create | Append | Insert | Replace.

(** Modelled from the spec: an end of [None] is the end of the file
    (spec 3, [RangeSpec]). *)
Definition resolved_end (total : Z) (p : Patch) : Z := default total (p_end p).

(** Modelled from the spec: the classification of spec 4.3, step 3; [None]
    is [InvalidPatchError]. *)
Definition classify (total : Z) (p : Patch) : option shape :=
  if (total =? 0) && (p_start p =? 1) then Some Create
  else if (p_start p =? total + 1)
          && match p_end p with None => true | Some e => e =? total end
  then Some Append
  else if match p_end p with None => false | Some e => p_start p =? e + 1 end
  then Some Insert
  else if (1 <=? p_start p) && (p_start p <=? resolved_end total p)
          && (resolved_end total p <=? total)
  then Some Replace
  else None.

(** Modelled from the spec: a creation-style patch (spec 4.3, step 1). *)
Definition creation_style (p : Patch) : bool :=
  (p_start p =? 1) && match p_end p with None => true | Some e => e =? 0 end.

(** Modelled from the spec: a replace patch carries the hash of the range
    it replaces (spec 4.3, step 4). *)
Definition range_hash_ok (snap : FileSnapshot) (ps : Patch * shape) : bool :=
  match ps.2 with
  | Replace =>
      String.eqb
        (hash (range_content (lines snap) (p_start ps.1)
                 (resolved_end (total_lines snap) ps.1)))
        (p_range_hash ps.1)
  | _ => true
  end.

(** Modelled from the spec: the patches the overlap check of spec 4.3,
    step 5, sets apart (the append) and compares (replace and insert). *)
Definition is_append (ps : Patch * shape) : bool :=
  match ps.2 with Append => true | _ => false end.

(** Modelled from the spec: see [is_append]. *)
Definition is_ranged (ps : Patch * shape) : bool :=
  match ps.2 with Replace | Insert => true | _ => false end.

(** Modelled from the spec: two intervals [start, end] intersect
    (spec 4.3, step 5). *)
Definition intersects (total : Z) (p q : Patch) : bool :=
  Z.max (p_start p) (p_start q) <=? Z.min (resolved_end total p) (resolved_end total q).

(** Modelled from the spec: some two patches of the list intersect
    (spec 4.3, step 5). *)
Fixpoint any_overlap (total : Z) (ps : list Patch) : bool :=
  match ps with
  | [] => false
  | p :: rest => existsb (intersects total p) rest || any_overlap total rest
  end.

(** Modelled from the spec: the order of application, descending by
    start, ties by larger end (spec 4.3, steps 5 and 6). *)
Definition before (total : Z) (p q : Patch * shape) : bool :=
  (p_start q.1 <? p_start p.1)
  || ((p_start p.1 =? p_start q.1)
      && (resolved_end total q.1 <=? resolved_end total p.1)).

(** Modelled from the spec: the re-sorting of spec 4.3, step 6, as an
    insertion sort. *)
Fixpoint insert_sorted (total : Z) (p : Patch * shape) (ps : list (Patch * shape))
  : list (Patch * shape) :=
  match ps with
  | [] => [p]
  | q :: rest =>
      if before total p q then p :: q :: rest
      else q :: insert_sorted total p rest
  end.

(** Modelled from the spec: the patches in the order they are applied;
    the append comes last (spec 4.3, step 5). *)
Definition apply_order (total : Z) (ps : list (Patch * shape)) : list (Patch * shape) :=
  foldr (insert_sorted total) [] (filter (fun p => negb (is_append p)) ps)
  ++ filter (fun p => is_append p = true) ps.

(** Modelled from the spec: the lines a patch brings (spec 4.4).  A last
    line without terminator gets one, unless [keep] says the patch reaches
    the end of a file whose last line had none. *)
Definition new_lines (keep : bool) (contents : string) : list string :=
  let ls := split_lines contents in
  if endswith contents LF || String.eqb contents "" || keep then ls
  else split_lines (contents +:+ LF).

(** Modelled from the spec: the final line of the file has no terminator
    (spec 4.4, replace). *)
Definition unterminated (ls : list string) : bool :=
  match last ls with
  | Some l => negb (endswith l LF)
  | None => false
  end.

(** Modelled from the spec: the Patch Applier (spec 4.4) on one patch,
    with the line numbers of the snapshot. *)
Definition apply_patch (snap : FileSnapshot) (ls : list string) (ps : Patch * shape)
  : list string :=
  let start := p_start ps.1 in
  let end_ := resolved_end (total_lines snap) ps.1 in
  let keep := unterminated (lines snap) && (end_ =? total_lines snap) in
  match ps.2 with
  | Create => split_lines (p_contents ps.1)
  | Append => ls ++ split_lines (p_contents ps.1)
  | Insert =>
      take (Z.to_nat (start - 1)) ls ++ new_lines false (p_contents ps.1)
      ++ drop (Z.to_nat (start - 1)) ls
  | Replace =>
      take (Z.to_nat (start - 1)) ls ++ new_lines keep (p_contents ps.1)
      ++ drop (Z.to_nat end_) ls
  end.

(** Modelled from the spec: [EditResult] (spec 3). *)
Definition ok_result (file_hash : string) : pydict :=
  <["result" := PyStr "ok"]>
    (<["file_hash" := PyStr file_hash]> (<["reason" := PyNone]> ∅)).

(** Modelled from the spec: [edit_file_contents] of [text_editor.py], the
    Patch Validator and Orderer followed by the Patch Applier (spec 4.3 and
    4.4).  Every failure is an error result that carries the current hash of
    the file, or [None] when there is no file; nothing is written then. *)
Definition edit_file_contents (d : gmap string string) (path expected_hash : string)
    (patches : list pydict) (encoding : string)
  : (exn + pydict) * gmap string string :=
  match snapshot d path with
  | None =>
      match mapM decode_patch patches with
      | None => (inr (error_result "InvalidPatchError" PyNone), d)
      | Some ps =>
          if String.eqb expected_hash "" && forallb creation_style ps
          then
            let content :=
              join_lines (foldl (fun _ p => split_lines (p_contents p)) [] ps) in
            (inr (ok_result (hash content)), <[path := content]> d)
          else (inr (error_result "NotFoundError" PyNone), d)
      end
  | Some snap =>
      let current := PyStr (full_hash snap) in
      if negb (String.eqb expected_hash (full_hash snap))
      then (inr (error_result "file hash mismatch" current), d)
      else
        match mapM decode_patch patches with
        | None => (inr (error_result "InvalidPatchError" current), d)
        | Some ps =>
            match mapM (fun p => pair p <$> classify (total_lines snap) p) ps with
            | None => (inr (error_result "InvalidPatchError" current), d)
            | Some shaped =>
                if negb (forallb (range_hash_ok snap) shaped)
                then (inr (error_result "range hash mismatch" current), d)
                else if any_overlap (total_lines snap)
                          (fst <$> filter (fun p => is_ranged p = true) shaped)
                        || (1 <? length (filter (fun p => is_append p = true) shaped))%nat
                then (inr (error_result "OverlapError" current), d)
                else
                  let content :=
                    join_lines
                      (foldl (apply_patch snap) (lines snap)
                         (apply_order (total_lines snap) shaped)) in
                  (inr (ok_result (hash content)), <[path := content]> d)
            end
        end
  end.

(** Modelled from the spec: the [TextEditor] of [text_editor.py], with the
    three methods above. *)
Definition editor : TextEditor (gmap string (string + list pydict)) :=
  {| editor_read_file_contents := read_file_contents;
     editor_edit_file_contents := edit_file_contents;
     editor_read_multiple_ranges := read_multiple_ranges |}.

End Engine.

(** Modelled from the spec: a Hasher for running the engine.  The digest of
    [text_editor.py] is asked to tell any two contents apart (spec 4.1);
    tagging the content does so, and no content hashes to the empty token. *)
Definition content_hash (content : string) : string := "h:" +:+ content.

End SpecEditor.

(** ** Contracts of the tools *)

(** A file operation of the edit tool that passes the checks of lines
    189-201: the three required fields are there and the path is
    absolute. *)
Definition well_formed (op : FileOperation) : bool :=
  match fo_path op, fo_file_hash op, fo_patches op with
  | Some path, Some _, Some _ => isabs path
  | _, _, _ => false
  end.

(** The patch of one range of a delete request, in the words of the
    delete tool's contract: the range's start, end and range hash, and
    the empty string as contents. *)
Definition patch_of_range (r : pydict) : option pydict :=
  start ← r !! "start";
  end_ ← r !! "end";
  range_hash ← r !! "range_hash";
  Some (make_patch start end_ (PyStr "") range_hash).

(** The keys the input schema of the delete tool requires of a range
    (line 463). *)
Definition delete_range_required : list string := ["start"; "range_hash"].

(** A range that has every key the schema requires. *)
Definition satisfies_schema (r : pydict) : bool :=
  forallb (fun key => bool_decide (is_Some (r !! key))) delete_range_required.

Section Outcomes.
Context {RM : Type} (editor : TextEditor RM).

(** The hash token the editor reports for the file now at [path], as the
    edit tool asks for it after a failure: [None] when the file cannot be
    read. *)
Definition current_hash (d : gmap string string) (path : string) : pyval :=
  match editor_read_file_contents editor d path None with
  | inr (_, _, _, h, _, _) => PyStr h
  | inl _ => PyNone
  end.

(** The result entry of one file operation and the disk it leaves, in the
    words of the orchestrator's contract: a failure of the editor is the
    entry of that file. *)
Definition file_entry (encoding path file_hash : string) (patches : list pydict)
    (d : gmap string string) : pydict * gmap string string :=
  match patches with
  | [] => (error_result "Empty patches list" (PyStr file_hash), d)
  | _ =>
      match editor_edit_file_contents editor d path file_hash patches encoding with
      | (inr result, d') => (result, d')
      | (inl e, d') => (error_result (str e) (current_hash d' path), d')
      end
  end.

(** The result mapping of a batch and the disk it leaves: every file
    operation is run on the disk its predecessors left, and writes its
    entry under its path. *)
Fixpoint batch (encoding : string) (files : list FileOperation)
    (results : gmap string pydict) (d : gmap string string)
  : gmap string pydict * gmap string string :=
  match files with
  | [] => (results, d)
  | op :: rest =>
      match fo_path op, fo_file_hash op, fo_patches op with
      | Some path, Some file_hash, Some patches =>
          let '(entry, d') := file_entry encoding path file_hash patches d in
          batch encoding rest (<[path := entry]> results) d'
      | _, _, _ => (results, d)
      end
  end.

End Outcomes.

(** ** Sample data *)

Module Sample.

(** The three-line file of the specification's scenarios. *)
Definition abc : string := "a" +:+ LF +:+ "b" +:+ LF +:+ "c" +:+ LF.

(** A disk with that file only, before any call. *)
Definition world0 : world := {| disk := <["/f.txt" := abc]> ∅; trace := [] |}.

(** The editor of the specification with its tagging hasher. *)
Definition spec_editor : TextEditor (gmap string (string + list pydict)) :=
  SpecEditor.editor SpecEditor.content_hash.

(** A test double: the specification's editor on a disk that cannot be
    written; every edit raises. *)
Definition read_only_editor : TextEditor (gmap string (string + list pydict)) :=
  {| editor_read_file_contents := SpecEditor.read_file_contents SpecEditor.content_hash;
     editor_edit_file_contents := fun d path _ _ _ =>
       (inl (EditorError "PermissionError" ("Permission denied: " +:+ path)), d);
     editor_read_multiple_ranges := SpecEditor.read_multiple_ranges SpecEditor.content_hash |}.

(** The replace patch of the specification's scenario: line 2 becomes
    ["B\n"]. *)
Definition patch_B : pydict :=
  make_patch (PyInt 2) (PyInt 2) (PyStr ("B" +:+ LF))
    (PyStr (SpecEditor.content_hash ("b" +:+ LF))).

(** The file after line 2 is replaced. *)
Definition aBc : string := "a" +:+ LF +:+ "B" +:+ LF +:+ "c" +:+ LF.

(** The edit request of the specification's scenario. *)
Definition replace_request : edit_arguments :=
  {| ea_files := Some
       [ {| fo_path := Some "/f.txt"; fo_file_hash := Some (SpecEditor.content_hash abc);
            fo_patches := Some [patch_B] |} ];
     ea_encoding := None |}.

(** An edit request whose second file operation has a relative path. *)
Definition late_relative_request : edit_arguments :=
  {| ea_files := Some
       [ {| fo_path := Some "/f.txt"; fo_file_hash := Some (SpecEditor.content_hash abc);
            fo_patches := Some [patch_B] |};
         {| fo_path := Some "rel.txt"; fo_file_hash := Some "";
            fo_patches := Some [patch_B] |} ];
     ea_encoding := None |}.

End Sample.


(** ** Tool descriptions *)

Unset Elimination Schemes.

(** A JSON value; the input schemas of the tools are dictionary literals
    of such values. *)
Inductive json : Type :=
| JNull
| JInt (n : Z)
| JStr (s : string)
| JList (items : list json)
| JObj (fields : list (string * json)).

Set Elimination Schemes.

(** [d.get(key)] on a JSON object, [None] on anything else. *)
Definition json_get (key : string) (j : json) : option json :=
  match j with
  | JObj fields => snd <$> List.find (fun kv => String.eqb (fst kv) key) fields
  | _ => None
  end.

(** The strings of a JSON list of strings. *)
Definition json_strings (j : json) : list string :=
  match j with
  | JList items => omap (fun x => match x with JStr s => Some s | _ => None end) items
  | _ => []
  end.

(** [schema["required"]], empty when the schema has none. *)
Definition schema_required (schema : json) : list string :=
  from_option json_strings [] (json_get "required" schema).

(** [schema["properties"][key]] *)
Definition schema_property (key : string) (schema : json) : option json :=
  json_get "properties" schema ≫= json_get key.

(** [schema["properties"][key]["default"]] when it is a string. *)
Definition schema_default (key : string) (schema : json) : option string :=
  match schema_property key schema ≫= json_get "default" with
  | Some (JStr s) => Some s
  | _ => None
  end.

(** [schema["properties"][key]["items"]]: the schema of the entries of an
    array property. *)
Definition schema_items (key : string) (schema : json) : option json :=
  schema_property key schema ≫= json_get "items".

(** [mcp.types.Tool], with the three fields the handlers fill in. *)
Record Tool : Type := {
  tool_name : string;
  tool_description : string;
  tool_inputSchema : json
}.


(** [GetTextFileContentsHandler.name] *)
Definition get_contents_handler_name : string := "get_text_file_contents".

(** [GetTextFileContentsHandler.description] *)
Definition get_contents_handler_description : string :=
  "Read text file contents from multiple files and line ranges. Returns file contents with hashes for concurrency control and line numbers for reference. The hashes are used to detect conflicts when editing the files. File paths must be absolute.".

(** The [inputSchema] of [GetTextFileContentsHandler.get_tool_description] (lines 37-79). *)
Definition get_contents_handler_inputSchema : json :=
  JObj [
    ("type", JStr "object");
    ("properties", JObj [
      ("files", JObj [
        ("type", JStr "array");
        ("description", JStr "List of files and their line ranges to read");
        ("items", JObj [
          ("type", JStr "object");
          ("properties", JObj [
            ("file_path", JObj [
              ("type", JStr "string");
              ("description", JStr "Path to the text file. File path must be absolute.")]);
            ("ranges", JObj [
              ("type", JStr "array");
              ("description", JStr "List of line ranges to read from the file");
              ("items", JObj [
                ("type", JStr "object");
                ("properties", JObj [
                  ("start", JObj [
                    ("type", JStr "integer");
                    ("description", JStr "Starting line number (1-based)")]);
                  ("end", JObj [
                    ("type", JList [JStr "integer"; JStr "null"]);
                    ("description", JStr "Ending line number (null for end of file)")])]);
                ("required", JList [JStr "start"])])])]);
          ("required", JList [JStr "file_path"; JStr "ranges"])])]);
      ("encoding", JObj [
        ("type", JStr "string");
        ("description", JStr "Text encoding (default: 'utf-8')");
        ("default", JStr "utf-8")])]);
    ("required", JList [JStr "files"])].

(** [EditTextFileContentsHandler.name] *)
Definition edit_contents_handler_name : string := "edit_text_file_contents".

(** [EditTextFileContentsHandler.description] *)
Definition edit_contents_handler_description : string :=
  "A line editor that supports editing text file contents by specifying line ranges and content. It handles multiple patches in a single operation with hash-based conflict detection. File paths must be absolute. IMPORTANT: (1) Before using this tool, you must first get the file's current hash and range hashes and line numbers using get_text_file_contents. (2) To avoid line number shifts affecting your patches, use get_text_file_contents to read the SAME ranges you plan to edit before making changes. different line numbers have different rangehashes.(3) Patches must be specified from bottom to top to handle line number shifts correctly, as edits to lower lines don't affect the line numbers of higher lines. (4) To append content to a file, first get the total number of lines with get_text_file_contents, then specify a patch with start = total_lines + 1 and end = total_lines. This indicates an append operation and range_hash is not required. Similarly, range_hash is not required for new file creation.".

(** The [inputSchema] of [EditTextFileContentsHandler.get_tool_description] (lines 122-173). *)
Definition edit_contents_handler_inputSchema : json :=
  JObj [
    ("type", JStr "object");
    ("properties", JObj [
      ("files", JObj [
        ("type", JStr "array");
        ("items", JObj [
          ("type", JStr "object");
          ("properties", JObj [
            ("path", JObj [
              ("type", JStr "string");
              ("description", JStr "Path to the text file. File path must be absolute.")]);
            ("file_hash", JObj [
              ("type", JStr "string");
              ("description", JStr "Hash of the file contents when get_text_file_contents is called.")]);
            ("patches", JObj [
              ("type", JStr "array");
              ("items", JObj [
                ("type", JStr "object");
                ("properties", JObj [
                  ("start", JObj [
                    ("type", JStr "integer");
                    ("default", JInt 1);
                    ("description", JStr "Starting line number (1-based). it should be matched with the start line number when get_text_file_contents is called.")]);
                  ("end", JObj [
                    ("type", JList [JStr "integer"; JStr "null"]);
                    ("default", JNull);
                    ("description", JStr "Ending line number (null for end of file). it should be matched with the end line number when get_text_file_contents is called.")]);
                  ("contents", JObj [
                    ("type", JStr "string")]);
                  ("range_hash", JObj [
                    ("type", JStr "string");
                    ("description", JStr "Hash of the content being replaced from start to end (required except for new files and append operations)")])]);
                ("required", JList [JStr "contents"])])])]);
          ("required", JList [JStr "path"; JStr "file_hash"; JStr "patches"])])]);
      ("encoding", JObj [
        ("type", JStr "string");
        ("description", JStr "Text encoding (default: 'utf-8')");
        ("default", JStr "utf-8")])]);
    ("required", JList [JStr "files"])].

(** [CreateTextFileHandler.name] *)
Definition create_file_handler_name : string := "create_text_file".

(** [CreateTextFileHandler.description] *)
Definition create_file_handler_description : string :=
  "Create a new text file with given content. The file must not exist already.".

(** The [inputSchema] of [CreateTextFileHandler.get_tool_description] (lines 261-279). *)
Definition create_file_handler_inputSchema : json :=
  JObj [
    ("type", JStr "object");
    ("properties", JObj [
      ("path", JObj [
        ("type", JStr "string");
        ("description", JStr "Path to the text file. File path must be absolute.")]);
      ("contents", JObj [
        ("type", JStr "string");
        ("description", JStr "Content to write to the file")]);
      ("encoding", JObj [
        ("type", JStr "string");
        ("description", JStr "Text encoding (default: 'utf-8')");
        ("default", JStr "utf-8")])]);
    ("required", JList [JStr "path"; JStr "contents"])].

(** [AppendTextFileContentsHandler.name] *)
Definition append_file_handler_name : string := "append_text_file_contents".

(** [AppendTextFileContentsHandler.description] *)
Definition append_file_handler_description : string :=
  "Append content to an existing text file. The file must exist.".

(** The [inputSchema] of [AppendTextFileContentsHandler.get_tool_description] (lines 336-358). *)
Definition append_file_handler_inputSchema : json :=
  JObj [
    ("type", JStr "object");
    ("properties", JObj [
      ("path", JObj [
        ("type", JStr "string");
        ("description", JStr "Path to the text file. File path must be absolute.")]);
      ("contents", JObj [
        ("type", JStr "string");
        ("description", JStr "Content to append to the file")]);
      ("file_hash", JObj [
        ("type", JStr "string");
        ("description", JStr "Hash of the file contents for concurrency control")]);
      ("encoding", JObj [
        ("type", JStr "string");
        ("description", JStr "Text encoding (default: 'utf-8')");
        ("default", JStr "utf-8")])]);
    ("required", JList [JStr "path"; JStr "contents"; JStr "file_hash"])].

(** [DeleteTextFileContentsHandler.name] *)
Definition delete_contents_handler_name : string := "delete_text_file_contents".

(** [DeleteTextFileContentsHandler.description] *)
Definition delete_contents_handler_description : string :=
  "Delete specified content ranges from a text file. The file must exist. File paths must be absolute.".

(** The [inputSchema] of [DeleteTextFileContentsHandler.get_tool_description] (lines 433-473). *)
Definition delete_contents_handler_inputSchema : json :=
  JObj [
    ("type", JStr "object");
    ("properties", JObj [
      ("file_path", JObj [
        ("type", JStr "string");
        ("description", JStr "Path to the text file. File path must be absolute.")]);
      ("file_hash", JObj [
        ("type", JStr "string");
        ("description", JStr "Hash of the file contents for concurrency control")]);
      ("ranges", JObj [
        ("type", JStr "array");
        ("description", JStr "List of line ranges to delete");
        ("items", JObj [
          ("type", JStr "object");
          ("properties", JObj [
            ("start", JObj [
              ("type", JStr "integer");
              ("description", JStr "Starting line number (1-based)")]);
            ("end", JObj [
              ("type", JList [JStr "integer"; JStr "null"]);
              ("description", JStr "Ending line number (null for end of file)")]);
            ("range_hash", JObj [
              ("type", JStr "string");
              ("description", JStr "Hash of the content being deleted")])]);
          ("required", JList [JStr "start"; JStr "range_hash"])])]);
      ("encoding", JObj [
        ("type", JStr "string");
        ("description", JStr "Text encoding (default: 'utf-8')");
        ("default", JStr "utf-8")])]);
    ("required", JList [JStr "file_path"; JStr "file_hash"; JStr "ranges"])].

(** [get_tool_description] of the five handlers. *)
Definition get_contents_handler_get_tool_description : Tool :=
  {| tool_name := get_contents_handler_name;
     tool_description := get_contents_handler_description;
     tool_inputSchema := get_contents_handler_inputSchema |}.

Definition edit_contents_handler_get_tool_description : Tool :=
  {| tool_name := edit_contents_handler_name;
     tool_description := edit_contents_handler_description;
     tool_inputSchema := edit_contents_handler_inputSchema |}.

Definition create_file_handler_get_tool_description : Tool :=
  {| tool_name := create_file_handler_name;
     tool_description := create_file_handler_description;
     tool_inputSchema := create_file_handler_inputSchema |}.

Definition append_file_handler_get_tool_description : Tool :=
  {| tool_name := append_file_handler_name;
     tool_description := append_file_handler_description;
     tool_inputSchema := append_file_handler_inputSchema |}.

Definition delete_contents_handler_get_tool_description : Tool :=
  {| tool_name := delete_contents_handler_name;
     tool_description := delete_contents_handler_description;
     tool_inputSchema := delete_contents_handler_inputSchema |}.

(** [list_tools] (lines 532-541). *)
Definition list_tools : list Tool :=
  [ get_contents_handler_get_tool_description;
    edit_contents_handler_get_tool_description;
    create_file_handler_get_tool_description;
    append_file_handler_get_tool_description;
    delete_contents_handler_get_tool_description ].

(** ** The dispatcher *)

(** One entry of [arguments["files"]] before a tool reads it: the read
    tool looks at ["file_path"] and ["ranges"], the edit tool at ["path"],
    ["file_hash"] and ["patches"]. *)
Record RawFile : Type := {
  rf_file_path : option string;
  rf_ranges : option (list pydict);
  rf_path : option string;
  rf_file_hash : option string;
  rf_patches : option (list pydict)
}.

(** The [arguments] of [call_tool], before the tool is chosen: every key
    some handler looks at, [None] when absent. *)
Record raw_arguments : Type := {
  ra_files : option (list RawFile);
  ra_encoding : option string;
  ra_path : option string;
  ra_contents : option string;
  ra_file_hash : option string;
  ra_file_path : option string;
  ra_ranges : option (list pydict)
}.

(** ["key" in arguments] *)
Definition has_key (arguments : raw_arguments) (key : string) : bool :=
  if String.eqb key "files" then bool_decide (is_Some (ra_files arguments))
  else if String.eqb key "encoding" then bool_decide (is_Some (ra_encoding arguments))
  else if String.eqb key "path" then bool_decide (is_Some (ra_path arguments))
  else if String.eqb key "contents" then bool_decide (is_Some (ra_contents arguments))
  else if String.eqb key "file_hash" then bool_decide (is_Some (ra_file_hash arguments))
  else if String.eqb key "file_path" then bool_decide (is_Some (ra_file_path arguments))
  else if String.eqb key "ranges" then bool_decide (is_Some (ra_ranges arguments))
  else false.

(** ["key" in file_operation] for an entry of the edit tool. *)
Definition operation_has_key (op : FileOperation) (key : string) : bool :=
  if String.eqb key "path" then bool_decide (is_Some (fo_path op))
  else if String.eqb key "file_hash" then bool_decide (is_Some (fo_file_hash op))
  else if String.eqb key "patches" then bool_decide (is_Some (fo_patches op))
  else false.

(** The keys each handler reads of [arguments]. *)
Definition get_view (arguments : raw_arguments) : get_arguments :=
  {| ga_files :=
       fmap (M := list)
         (fun f => {| fi_file_path := rf_file_path f; fi_ranges := rf_ranges f |})
       <$> ra_files arguments;
     ga_encoding := ra_encoding arguments |}.

Definition edit_view (arguments : raw_arguments) : edit_arguments :=
  {| ea_files :=
       fmap (M := list)
         (fun f => {| fo_path := rf_path f; fo_file_hash := rf_file_hash f;
                      fo_patches := rf_patches f |})
       <$> ra_files arguments;
     ea_encoding := ra_encoding arguments |}.

Definition create_view (arguments : raw_arguments) : create_arguments :=
  {| ca_path := ra_path arguments; ca_contents := ra_contents arguments;
     ca_encoding := ra_encoding arguments |}.

Definition append_view (arguments : raw_arguments) : append_arguments :=
  {| aa_path := ra_path arguments; aa_contents := ra_contents arguments;
     aa_file_hash := ra_file_hash arguments; aa_encoding := ra_encoding arguments |}.

Definition delete_view (arguments : raw_arguments) : delete_arguments :=
  {| da_file_path := ra_file_path arguments; da_file_hash := ra_file_hash arguments;
     da_ranges := ra_ranges arguments; da_encoding := ra_encoding arguments |}.

(** What [call_tool] returns: the document of the tool that ran. *)
Inductive tool_output (RM : Type) : Type :=
| GetOutput (result : RM)
| EditOutput (results : gmap string pydict)
| DocOutput (result : pydict).
Arguments GetOutput {RM} _.
Arguments EditOutput {RM} _.
Arguments DocOutput {RM} _.

(** [ValueError(msg)], the one exception [call_tool] raises itself, as the
    exception of that class. *)
Definition ValueError (msg : string) : exn := EditorError "ValueError" msg.

Section Dispatch.
Context {RM : Type} (editor : TextEditor RM).

(** [call_tool] (lines 544-566).  The handlers are module-level objects,
    each with a [TextEditor] of its own; the editor keeps nothing between
    calls, so one [editor] stands for the five.  [except ValueError] is
    the test of the class name; the logging is left out. *)
Definition call_tool (name : string) (arguments : raw_arguments)
  : M (tool_output RM) :=
  try_except
    (if String.eqb name get_contents_handler_name
     then r ← get_run_tool editor (get_view arguments); mret (GetOutput r)
     else if String.eqb name edit_contents_handler_name
     then r ← edit_run_tool editor (edit_view arguments); mret (EditOutput r)
     else if String.eqb name create_file_handler_name
     then r ← create_run_tool editor (create_view arguments); mret (DocOutput r)
     else if String.eqb name append_file_handler_name
     then r ← append_run_tool editor (append_view arguments); mret (DocOutput r)
     else if String.eqb name delete_contents_handler_name
     then r ← delete_run_tool editor (delete_view arguments); mret (DocOutput r)
     else raise (ValueError ("Unknown tool: " +:+ name)))
    (fun e =>
       match e with
       | EditorError cls _ =>
           if String.eqb cls "ValueError" then raise e
           else raise (RuntimeError ("Error executing command: " +:+ str e))
       | _ => raise (RuntimeError ("Error executing command: " +:+ str e))
       end).

End Dispatch.

(** ** Traces *)

(** The calls of [edit_file_contents] in a trace. *)
Definition edit_calls (t : list event) : list event :=
  List.filter (fun ev => match ev with EditFileContents _ _ _ _ => true | _ => false end) t.

(** The calls of [edit_file_contents] a batch asks for: one for every file
    operation with patches, with the caller's path, token and patches. *)
Definition expected_edit_calls (encoding : string) (files : list FileOperation)
  : list event :=
  omap (fun op =>
          match fo_path op, fo_file_hash op, fo_patches op with
          | Some path, Some file_hash, Some (p :: ps) =>
              Some (EditFileContents path file_hash (p :: ps) encoding)
          | _, _, _ => None
          end) files.

(** The message of the first check of lines 189-201 a file operation
    fails, [None] when it passes them all. *)
Definition failed_check (op : FileOperation) : option string :=
  match fo_path op, fo_file_hash op, fo_patches op with
  | None, _, _ => Some "Missing required field: path"
  | Some _, None, _ => Some "Missing required field: file_hash"
  | Some _, Some _, None => Some "Missing required field: patches"
  | Some path, Some _, Some _ =>
      if isabs path then None else Some ("File path must be absolute: " +:+ path)
  end.


(** [arguments] with its ["encoding"] key set, or removed. *)
Definition with_encoding (encoding : option string) (arguments : raw_arguments)
  : raw_arguments :=
  {| ra_files := ra_files arguments; ra_encoding := encoding;
     ra_path := ra_path arguments; ra_contents := ra_contents arguments;
     ra_file_hash := ra_file_hash arguments; ra_file_path := ra_file_path arguments;
     ra_ranges := ra_ranges arguments |}.

(** The names [list_tools] advertises. *)
Definition tool_names : list string := tool_name <$> list_tools.

(** ** More sample data *)

Module Requests.

(** A test double: an editor that cannot decode any file; every read
    raises, and so does every edit. *)
Definition undecodable_editor : TextEditor (gmap string (string + list pydict)) :=
  {| editor_read_file_contents := fun _ path _ =>
       inl (EditorError "UnicodeDecodeError" ("cannot decode " +:+ path));
     editor_edit_file_contents := fun d path _ _ _ =>
       (inl (EditorError "UnicodeDecodeError" ("cannot decode " +:+ path)), d);
     editor_read_multiple_ranges := fun _ _ _ =>
       inl (EditorError "UnicodeDecodeError" "cannot decode") |}.

(** A range over line 2 of the three-line file. *)
Definition range_2 : pydict :=
  <["start" := PyInt 2]> (<["end" := PyInt 2]> ∅).

(** Entries of the read tool: on the sample file, with a relative path,
    and without path. *)
Definition read_f : FileInfo :=
  {| fi_file_path := Some "/f.txt"; fi_ranges := Some [range_2] |}.

Definition read_relative : FileInfo :=
  {| fi_file_path := Some "rel.txt"; fi_ranges := Some [range_2] |}.

Definition read_nowhere : FileInfo :=
  {| fi_file_path := None; fi_ranges := Some [range_2] |}.

(** The file operations of [Sample.late_relative_request]. *)
Definition edit_f : FileOperation :=
  {| fo_path := Some "/f.txt";
     fo_file_hash := Some (SpecEditor.content_hash Sample.abc);
     fo_patches := Some [Sample.patch_B] |}.

Definition edit_relative : FileOperation :=
  {| fo_path := Some "rel.txt"; fo_file_hash := Some "";
     fo_patches := Some [Sample.patch_B] |}.

(** An append of ["d"] to the sample file, with the right token. *)
Definition append_d : append_arguments :=
  {| aa_path := Some "/f.txt"; aa_contents := Some "d";
     aa_file_hash := Some (SpecEditor.content_hash Sample.abc);
     aa_encoding := None |}.

(** A deletion of line 2 of the sample file; the range carries a
    ["contents"] key of its own. *)
Definition delete_2 : delete_arguments :=
  {| da_file_path := Some "/f.txt";
     da_file_hash := Some (SpecEditor.content_hash Sample.abc);
     da_ranges := Some
       [ <["start" := PyInt 2]>
           (<["end" := PyInt 2]>
              (<["contents" := PyStr "kept?"]>
                 (<["range_hash" := PyStr (SpecEditor.content_hash ("b" +:+ LF))]> ∅))) ];
     da_encoding := None |}.

(** A creation of ["/new.txt"]. *)
Definition create_new : create_arguments :=
  {| ca_path := Some "/new.txt"; ca_contents := Some ("hello" +:+ LF);
     ca_encoding := None |}.

(** Arguments of [call_tool] with nothing but a relative path. *)
Definition only_relative_path : raw_arguments :=
  {| ra_files := None; ra_encoding := None; ra_path := Some "rel.txt";
     ra_contents := None; ra_file_hash := None; ra_file_path := None;
     ra_ranges := None |}.

(** Arguments of [call_tool] for an append to the sample file. *)
Definition raw_append_d : raw_arguments :=
  {| ra_files := None; ra_encoding := None; ra_path := Some "/f.txt";
     ra_contents := Some "d";
     ra_file_hash := Some (SpecEditor.content_hash Sample.abc);
     ra_file_path := None; ra_ranges := None |}.

End Requests.

(** A call that reaches for one of the given paths, an absolute one, to
    edit it or to read it the way the edit tool does after a failure
    (without encoding). *)
Definition touches_only (paths : list string) (ev : event) : Prop :=
  match ev with
  | EditFileContents p _ _ _ => p ∈ paths /\ isabs p = true
  | ReadFileContents p None => p ∈ paths /\ isabs p = true
  | _ => False
  end.

(** * Properties *)

(** ** Strings and the monad *)

Lemma string_app_nil_r (s : string) : s +:+ "" = s.
Proof.
  induction s as [|c s IH]; [reflexivity|].
  change (String c (s +:+ "") = String c s). by rewrite IH.
Qed.

Lemma string_app_assoc (s t u : string) : (s +:+ t) +:+ u = s +:+ t +:+ u.
Proof.
  induction s as [|c s IH]; [reflexivity|].
  change (String c ((s +:+ t) +:+ u) = String c (s +:+ t +:+ u)). by rewrite IH.
Qed.

Lemma os_path_exists_present (path content : string) (w : world) :
  disk w !! path = Some content ->
  os_path_exists path w = (inr true, log (OsPathExists path) w).
Proof.
  intros H. unfold os_path_exists. rewrite H.
  by rewrite bool_decide_eq_true_2; [|eexists].
Qed.

Lemma os_path_exists_absent (path : string) (w : world) :
  disk w !! path = None ->
  os_path_exists path w = (inr false, log (OsPathExists path) w).
Proof.
  intros H. unfold os_path_exists. rewrite H.
  rewrite bool_decide_eq_false_2; [done|]. by intros [? ?].
Qed.


(** Entries already written stay in the mapping, and every file operation
    of a batch that passes the checks has one. *)
Lemma batch_keeps {RM : Type} (editor : TextEditor RM) (encoding : string)
    (files : list FileOperation) (results : gmap string pydict)
    (d : gmap string string) (p : string) :
  is_Some (results !! p) ->
  is_Some ((batch editor encoding files results d).1 !! p).
Proof.
  revert results d. induction files as [|op rest IH]; intros results d Hp; [done|].
  simpl. destruct (fo_path op) as [path|]; [|done].
  destruct (fo_file_hash op) as [file_hash|]; [|done].
  destruct (fo_patches op) as [patches|]; [|done].
  destruct (file_entry editor encoding path file_hash patches d) as [entry d'].
  apply IH. rewrite lookup_insert_is_Some.
  destruct (decide (path = p)); auto.
Qed.

Lemma batch_entries {RM : Type} (editor : TextEditor RM) (encoding : string)
    (files : list FileOperation) (results : gmap string pydict)
    (d : gmap string string) (op : FileOperation) :
  forallb well_formed files = true -> op ∈ files ->
  exists path,
    fo_path op = Some path
    /\ is_Some ((batch editor encoding files results d).1 !! path).
Proof.
  revert results d. induction files as [|op' rest IH]; intros results d Hwf Hin.
  { by apply elem_of_nil in Hin. }
  simpl in Hwf. apply andb_prop in Hwf as [Hop Hrest].
  unfold well_formed in Hop. simpl.
  destruct (fo_path op') as [path|] eqn:Hp; [|done].
  destruct (fo_file_hash op') as [file_hash|]; [|done].
  destruct (fo_patches op') as [patches|]; [|done].
  destruct (file_entry editor encoding path file_hash patches d) as [entry d'].
  apply elem_of_cons in Hin as [->|Hin].
  - exists path. split; [done|]. apply batch_keeps. by rewrite lookup_insert_eq.
  - by apply IH.
Qed.

(** A batch is run front to back: the operations of a suffix start from
    the mapping and the disk its prefix left. *)
Lemma batch_app {RM : Type} (editor : TextEditor RM) (encoding : string)
    (pre post : list FileOperation) (results : gmap string pydict)
    (d : gmap string string) :
  forallb well_formed pre = true ->
  batch editor encoding (pre ++ post) results d
  = batch editor encoding post
      (batch editor encoding pre results d).1 (batch editor encoding pre results d).2.
Proof.
  revert results d. induction pre as [|op rest IH]; intros results d Hwf; [done|].
  simpl in Hwf. apply andb_prop in Hwf as [Hop Hrest].
  unfold well_formed in Hop. simpl.
  destruct (fo_path op) as [path|]; [|done].
  destruct (fo_file_hash op) as [file_hash|]; [|done].
  destruct (fo_patches op) as [patches|]; [|done].
  destruct (file_entry editor encoding path file_hash patches d) as [entry d'].
  by apply IH.
Qed.

(** Operations on other paths leave the entry of a path alone. *)
Lemma batch_untouched {RM : Type} (editor : TextEditor RM) (encoding : string)
    (files : list FileOperation) (results : gmap string pydict)
    (d : gmap string string) (p : string) :
  p ∉ omap fo_path files ->
  (batch editor encoding files results d).1 !! p = results !! p.
Proof.
  revert results d. induction files as [|op rest IH]; intros results d Hp; [done|].
  simpl in *. destruct (fo_path op) as [path|] eqn:Hpath; [|done].
  simpl in Hp. apply not_elem_of_cons in Hp as [Hne Hrest].
  destruct (fo_file_hash op) as [file_hash|]; [|done].
  destruct (fo_patches op) as [patches|]; [|done].
  destruct (file_entry editor encoding path file_hash patches d) as [entry d'].
  rewrite (IH _ _ Hrest). by rewrite lookup_insert_ne.
Qed.

(** The entry a batch returns under a path is the one of the last file
    operation on that path, run on the disk the operations before it
    left. *)
Lemma batch_last_entry {RM : Type} (editor : TextEditor RM) (encoding : string)
    (pre post : list FileOperation) (op : FileOperation)
    (path file_hash : string) (patches : list pydict) (d : gmap string string) :
  forallb well_formed pre = true ->
  fo_path op = Some path -> fo_file_hash op = Some file_hash ->
  fo_patches op = Some patches ->
  path ∉ omap fo_path post ->
  (batch editor encoding (pre ++ op :: post) ∅ d).1 !! path
  = Some (file_entry editor encoding path file_hash patches
            (batch editor encoding pre ∅ d).2).1.
Proof.
  intros Hpre Hp Hh Hs Hpost. rewrite (batch_app _ _ _ _ _ _ Hpre).
  simpl. rewrite Hp, Hh, Hs.
  destruct (file_entry editor encoding path file_hash patches _) as [entry d'].
  rewrite (batch_untouched _ _ _ _ _ _ Hpost). by rewrite lookup_insert_eq.
Qed.

Section HandlerFacts.
Context {RM : Type} (editor : TextEditor RM).

(** ** The edit tool *)

(** C9.  An edit request whose list of file operations is empty returns the
    empty result mapping; the world (disk and trace of calls) is the one
    the call started in, so no file was touched and nothing was raised. *)
Theorem edit_empty_batch (arguments : edit_arguments) (files : list FileOperation)
    (w : world) :
  ea_files arguments = Some files -> length files = 0%nat ->
  edit_run_tool editor arguments w = (inr ∅, w).
Proof.
  intros Hfiles Hlen. unfold edit_run_tool, try_except.
  rewrite Hfiles, Hlen. reflexivity.
Qed.

(** C4.  A file operation with an empty patches list gets the error entry
    with reason "Empty patches list" at once: the [try] statement returns
    it in the world it started in (no call reached the disk), and the loop
    goes on with the next file operation in that same world. *)
Theorem empty_patches_immediate_error (arguments : edit_arguments)
    (path file_hash : string) (rest : list FileOperation)
    (results : gmap string pydict) (w : world) :
  isabs path = true ->
  let op := {| fo_path := Some path; fo_file_hash := Some file_hash;
               fo_patches := Some [] |} in
  let entry := error_result "Empty patches list" (PyStr file_hash) in
  edit_one editor arguments op path file_hash [] results w
  = (inr (<[path := entry]> results), w)
  /\ edit_loop editor arguments (op :: rest) results w
     = edit_loop editor arguments rest (<[path := entry]> results) w.
Proof.
  intros Habs op entry. split; [reflexivity|].
  simpl. rewrite Habs. reflexivity.
Qed.

(** One round of the loop, for a file operation that passes the checks. *)
Lemma edit_loop_cons (arguments : edit_arguments) (op : FileOperation)
    (path file_hash : string) (patches : list pydict)
    (rest : list FileOperation) (results : gmap string pydict) (w : world) :
  fo_path op = Some path -> fo_file_hash op = Some file_hash ->
  fo_patches op = Some patches -> isabs path = true ->
  edit_loop editor arguments (op :: rest) results w
  = (edit_one editor arguments op path file_hash patches results
       ≫= edit_loop editor arguments rest) w.
Proof.
  intros Hp Hh Hs Habs. simpl. rewrite Hp, Hh, Hs, Habs. reflexivity.
Qed.

(** The [try] statement of one file operation never lets an exception out:
    it returns the results with the entry of [file_entry] under the path,
    and leaves the disk of [file_entry]. *)
Lemma edit_one_entry (arguments : edit_arguments) (op : FileOperation)
    (path file_hash : string) (patches : list pydict)
    (results : gmap string pydict) (w : world) :
  fo_path op = Some path ->
  let out := edit_one editor arguments op path file_hash patches results w in
  let model := file_entry editor (default "utf-8" (ea_encoding arguments))
                 path file_hash patches (disk w) in
  out.1 = inr (<[path := model.1]> results) /\ disk out.2 = model.2.
Proof.
  intros Hp. unfold edit_one, file_entry, try_except. rewrite Hp.
  destruct patches as [|p ps]; [done|].
  unfold mbind, M_bind, edit_file_contents, current_hash, read_file_contents.
  destruct (editor_edit_file_contents editor (disk w) path file_hash (p :: ps) _)
    as [[e|result] d'] eqn:Hedit; simpl; [|done].
  destruct (editor_read_file_contents editor d' path None)
    as [e'|[[[[[? ?] ?] h] ?] ?]]; done.
Qed.

Lemma edit_loop_batch (arguments : edit_arguments) (files : list FileOperation)
    (results : gmap string pydict) (w : world) :
  forallb well_formed files = true ->
  let out := edit_loop editor arguments files results w in
  let model := batch editor (default "utf-8" (ea_encoding arguments))
                 files results (disk w) in
  out.1 = inr model.1 /\ disk out.2 = model.2.
Proof.
  revert results w. induction files as [|op rest IH]; intros results w Hwf; [done|].
  simpl in Hwf. apply andb_prop in Hwf as [Hop Hrest].
  unfold well_formed in Hop.
  destruct (fo_path op) as [path|] eqn:Hp; [|done].
  destruct (fo_file_hash op) as [file_hash|] eqn:Hh; [|done].
  destruct (fo_patches op) as [patches|] eqn:Hs; [|done].
  rewrite (edit_loop_cons _ _ _ _ _ _ _ _ Hp Hh Hs Hop).
  cbn [batch]. rewrite Hp, Hh, Hs.
  pose proof (edit_one_entry arguments op path file_hash patches results w Hp) as [H1 H2].
  unfold mbind, M_bind.
  destruct (edit_one editor arguments op path file_hash patches results w)
    as [[e|results'] w'] eqn:Hone; simpl in H1, H2; [done|].
  injection H1 as ->.
  destruct (file_entry editor _ path file_hash patches (disk w)) as [entry d'] eqn:Hfe.
  simpl in *. subst d'. apply (IH _ w' Hrest).
Qed.

Lemma edit_loop_ill_formed (arguments : edit_arguments) (files : list FileOperation)
    (results : gmap string pydict) (w : world) :
  forallb well_formed files = false ->
  exists msg, (edit_loop editor arguments files results w).1 = inl (RuntimeError msg).
Proof.
  revert results w. induction files as [|op rest IH]; intros results w Hwf; [done|].
  simpl in Hwf. simpl.
  destruct (fo_path op) as [path|] eqn:Hp; [|by eexists].
  destruct (fo_file_hash op) as [file_hash|] eqn:Hh; [|by eexists].
  destruct (fo_patches op) as [patches|] eqn:Hs; [|by eexists].
  destruct (isabs path) eqn:Habs; [|by eexists]. simpl.
  assert (well_formed op = true) as Hop by (unfold well_formed; by rewrite Hp, Hh, Hs).
  rewrite Hop in Hwf. simpl in Hwf.
  pose proof (edit_one_entry arguments op path file_hash patches results w Hp) as [H1 _].
  unfold mbind, M_bind.
  destruct (edit_one editor arguments op path file_hash patches results w)
    as [[e|results'] w'] eqn:Hone; simpl in H1; [done|].
  apply IH, Hwf.
Qed.

(** C2, amended.  A request without ["files"] raises.  In an edit batch
    every file operation of which passes the request checks (the three
    fields present, the path absolute), whatever the editor does with one
    file operation ends in that file's entry of the result mapping, and
    the loop goes on with the next file operation on the disk this one
    left: the call never raises and returns the mapping of [batch]; every
    file operation has an entry in it, and the entry under a path is the
    one of the last file operation on that path, run on the disk the
    operations before it left.  When the editor raised [e] there, that
    entry has the result ["error"], the reason [str(e)] and, as file
    hash, the hash read back from the disk the failed edit left, [None]
    when that read raises.  A file operation that fails a request check is
    not answered by an entry: the call raises. *)
Theorem edit_batch_failures_stay_per_file (arguments : edit_arguments) (w : world) :
  let out := edit_run_tool editor arguments w in
  let encoding := default "utf-8" (ea_encoding arguments) in
  (ea_files arguments = None ->
   out = (inl (RuntimeError "Error processing request: Missing required argument: files"),
          w))
  /\ (forall files : list FileOperation,
        ea_files arguments = Some files ->
        let model := batch editor encoding files ∅ (disk w) in
        (forallb well_formed files = true ->
         out.1 = inr model.1 /\ disk out.2 = model.2
         /\ (forall op, op ∈ files ->
              exists path, fo_path op = Some path /\ is_Some (model.1 !! path))
         /\ (forall (pre post : list FileOperation) (path file_hash : string)
                    (patches : list pydict),
                files = (pre ++ {| fo_path := Some path; fo_file_hash := Some file_hash;
                                   fo_patches := Some patches |} :: post)%list ->
                path ∉ omap fo_path post ->
                model.1 !! path
                = Some (file_entry editor encoding path file_hash patches
                          (batch editor encoding pre ∅ (disk w)).2).1)
         /\ (forall (pre post : list FileOperation) (path file_hash : string)
                    (patches : list pydict) (e : exn) (d' : gmap string string),
                files = (pre ++ {| fo_path := Some path; fo_file_hash := Some file_hash;
                                   fo_patches := Some patches |} :: post)%list ->
                path ∉ omap fo_path post ->
                patches <> [] ->
                editor_edit_file_contents editor
                  (batch editor encoding pre ∅ (disk w)).2 path file_hash patches encoding
                = (inl e, d') ->
                exists entry : pydict,
                  model.1 !! path = Some entry
                  /\ entry !! "result" = Some (PyStr "error")
                  /\ entry !! "reason" = Some (PyStr (str e))
                  /\ entry !! "file_hash" = Some (current_hash editor d' path)))
        /\ (forallb well_formed files = false ->
            exists msg, out.1 = inl (RuntimeError msg))).
Proof.
  intros out encoding. split.
  { intros Hnone. unfold out, edit_run_tool, try_except. by rewrite Hnone. }
  intros files Hfiles model.
  assert (forallb well_formed files = true ->
          forall (pre post : list FileOperation) (path file_hash : string)
                 (patches : list pydict),
            files = (pre ++ {| fo_path := Some path; fo_file_hash := Some file_hash;
                               fo_patches := Some patches |} :: post)%list ->
            path ∉ omap fo_path post ->
            model.1 !! path
            = Some (file_entry editor encoding path file_hash patches
                      (batch editor encoding pre ∅ (disk w)).2).1) as Hlast.
  { intros Hwf pre post path file_hash patches -> Hpost. unfold model.
    rewrite forallb_app in Hwf. apply andb_prop in Hwf as [Hpre _].
    by apply batch_last_entry. }
  assert (forallb well_formed files = true ->
          forall (pre post : list FileOperation) (path file_hash : string)
                 (patches : list pydict) (e : exn) (d' : gmap string string),
            files = (pre ++ {| fo_path := Some path; fo_file_hash := Some file_hash;
                               fo_patches := Some patches |} :: post)%list ->
            path ∉ omap fo_path post ->
            patches <> [] ->
            editor_edit_file_contents editor
              (batch editor encoding pre ∅ (disk w)).2 path file_hash patches encoding
            = (inl e, d') ->
            exists entry : pydict,
              model.1 !! path = Some entry
              /\ entry !! "result" = Some (PyStr "error")
              /\ entry !! "reason" = Some (PyStr (str e))
              /\ entry !! "file_hash" = Some (current_hash editor d' path)) as Hraised.
  { intros Hwf pre post path file_hash patches e d' Hsplit Hpost Hne Hedit.
    rewrite (Hlast Hwf pre post path file_hash patches Hsplit Hpost).
    unfold file_entry. destruct patches as [|p ps]; [done|]. rewrite Hedit.
    eexists. split; [reflexivity|]. by repeat split. }
  unfold out, model in *. clear out model.
  unfold edit_run_tool, try_except. rewrite Hfiles.
  destruct files as [|op rest].
  { split; [|done]. intros Hwf. do 2 (split; [done|]).
    split; [|split; [by apply Hlast|by apply Hraised]].
    intros op Hin. by apply elem_of_nil in Hin. }
  change (length (op :: rest) =? 0)%nat with false. cbv iota.
  split; intros Hwf.
  - pose proof (edit_loop_batch arguments (op :: rest) ∅ w Hwf) as [H1 H2].
    destruct (edit_loop editor arguments (op :: rest) ∅ w) as [[e|r] w'];
      cbn [fst snd] in H1, H2 |- *; [done|]. split; [done|]. split; [exact H2|].
    split; [|split; [by apply Hlast|by apply Hraised]].
    intros op0 Hin. by apply batch_entries.
  - pose proof (edit_loop_ill_formed arguments (op :: rest) ∅ w Hwf) as [msg H].
    destruct (edit_loop editor arguments (op :: rest) ∅ w) as [[e|r] w'];
      simpl in H; [|done]. simpl. by eexists.
Qed.

End HandlerFacts.

(** ** The editor of the specification *)

Section SpecEditorFacts.
Variable hash : string -> string.

(** Joining the lines of a text gives the text back. *)
Lemma join_split_lines_from (current s : string) :
  SpecEditor.join_lines (SpecEditor.split_lines_from current s) = current +:+ s.
Proof.
  revert current. induction s as [|c rest IH]; intros current; simpl.
  - destruct (String.eqb_spec current "") as [->|_]; [done|].
    unfold SpecEditor.join_lines. simpl. done.
  - destruct (Ascii.eqb_spec c (ascii_of_nat 10)) as [->|_].
    + unfold SpecEditor.join_lines. simpl. fold (SpecEditor.join_lines).
      change (foldr String.append "" (SpecEditor.split_lines_from "" rest))
        with (SpecEditor.join_lines (SpecEditor.split_lines_from "" rest)).
      rewrite IH. by rewrite string_app_assoc.
    + rewrite IH. by rewrite string_app_assoc.
Qed.

Lemma join_split_lines (content : string) :
  SpecEditor.join_lines (SpecEditor.split_lines content) = content.
Proof. apply join_split_lines_from. Qed.

Lemma snapshot_present (d : gmap string string) (path content : string) :
  d !! path = Some content ->
  exists snap,
    SpecEditor.snapshot hash d path = Some snap
    /\ SpecEditor.full_hash snap = hash content
    /\ SpecEditor.lines snap = SpecEditor.split_lines content
    /\ SpecEditor.total_lines snap
       = Z.of_nat (length (SpecEditor.split_lines content)).
Proof.
  intros H. unfold SpecEditor.snapshot. rewrite H. eexists. split; [done|].
  simpl. by rewrite join_split_lines.
Qed.

(** Reading a file that exists reports the hash of its content. *)
Lemma spec_read_hash (d : gmap string string) (path content : string)
    (encoding : option string) :
  d !! path = Some content ->
  let total := Z.of_nat (length (SpecEditor.split_lines content)) in
  SpecEditor.read_file_contents hash d path encoding
  = inr (content, 1, total, hash content, total,
         Z.of_nat (String.length content)).
Proof.
  intros H total. unfold SpecEditor.read_file_contents, SpecEditor.snapshot.
  rewrite H. simpl. fold total.
  assert (SpecEditor.range_content (SpecEditor.split_lines content) 1 total = content)
    as ->; [|done].
  unfold SpecEditor.range_content, total. simpl.
  replace (Z.to_nat (Z.of_nat (length (SpecEditor.split_lines content)) - 1 + 1))
    with (length (SpecEditor.split_lines content)) by lia.
  rewrite firstn_all. apply join_split_lines.
Qed.

Lemma spec_read_absent (d : gmap string string) (path : string)
    (encoding : option string) :
  d !! path = None ->
  SpecEditor.read_file_contents hash d path encoding
  = inl (EditorError "NotFoundError" path).
Proof.
  intros H. unfold SpecEditor.read_file_contents, SpecEditor.snapshot. by rewrite H.
Qed.

(** Spec 4.3, step 2: a token that is not the hash of the file is a
    conflict, whatever the patches; nothing is written. *)
Lemma spec_edit_stale (d : gmap string string) (path token content : string)
    (patches : list pydict) (encoding : string) :
  d !! path = Some content -> token <> hash content ->
  SpecEditor.edit_file_contents hash d path token patches encoding
  = (inr (error_result "file hash mismatch" (PyStr (hash content))), d).
Proof.
  intros H Hstale. unfold SpecEditor.edit_file_contents.
  destruct (snapshot_present d path content H) as (snap & -> & Hfull & _).
  rewrite Hfull. apply String.eqb_neq in Hstale. by rewrite Hstale.
Qed.

Lemma decode_make_patch (start : Z) (contents range_hash : string) :
  SpecEditor.decode_patch (make_patch (PyInt start) PyNone (PyStr contents) (PyStr range_hash))
  = Some {| SpecEditor.p_start := start; SpecEditor.p_end := None;
            SpecEditor.p_contents := contents;
            SpecEditor.p_range_hash := range_hash |}.
Proof. reflexivity. Qed.

(** Spec 4.3, step 1, and 4.4: the creation patch on a path without file
    writes the contents there. *)
Lemma spec_edit_create (d : gmap string string) (path contents encoding : string) :
  d !! path = None ->
  SpecEditor.edit_file_contents hash d path ""
    [make_patch (PyInt 1) PyNone (PyStr contents) (PyStr "")] encoding
  = (inr (SpecEditor.ok_result (hash contents)), <[path := contents]> d).
Proof.
  intros H. unfold SpecEditor.edit_file_contents, SpecEditor.snapshot. rewrite H.
  simpl mapM. rewrite decode_make_patch. simpl.
  by rewrite join_split_lines.
Qed.

Lemma error_result_lookup (reason : string) (file_hash : pyval) :
  error_result reason file_hash !! "result" = Some (PyStr "error")
  /\ error_result reason file_hash !! "reason" = Some (PyStr reason)
  /\ error_result reason file_hash !! "file_hash" = Some file_hash.
Proof. by repeat split. Qed.

(** Spec 3 and 4.3: an error result of the editor carries the hash of the
    file now on disk, or [None] when there is no file; the disk is as it
    was. *)
Lemma spec_edit_error_hash (d d' : gmap string string)
    (path token encoding : string) (patches : list pydict) (r : pydict) :
  SpecEditor.edit_file_contents hash d path token patches encoding = (inr r, d') ->
  r !! "result" = Some (PyStr "error") ->
  d' = d
  /\ r !! "file_hash"
     = Some (match d !! path with
             | Some content => PyStr (hash content)
             | None => PyNone
             end).
Proof.
  unfold SpecEditor.edit_file_contents.
  destruct (d !! path) as [content|] eqn:Hd.
  - destruct (snapshot_present d path content Hd) as (snap & -> & Hfull & _).
    rewrite Hfull.
    repeat (match goal with
            | |- context [match ?x with _ => _ end] => destruct x
            end; simpl);
      intros [= <- <-] Hr; try done.
  - unfold SpecEditor.snapshot. rewrite Hd.
    repeat (match goal with
            | |- context [match ?x with _ => _ end] => destruct x
            end; simpl);
      intros [= <- <-] Hr; try done.
Qed.

End SpecEditorFacts.

Section ToolFacts.
Context {RM : Type} (editor : TextEditor RM).

(** ** The create tool *)

(** A create request for a path that exists raises, and leaves the disk
    as it was: whichever check stops it, no edit is attempted. *)
Lemma create_existing_fails (arguments : create_arguments) (path : string)
    (w : world) :
  ca_path arguments = Some path -> is_Some (disk w !! path) ->
  exists msg w',
    create_run_tool editor arguments w = (inl (RuntimeError msg), w')
    /\ disk w' = disk w
    /\ (w' = w \/ w' = log (OsPathExists path) w).
Proof.
  intros Hp [content Hc]. unfold create_run_tool, try_except. rewrite Hp.
  destruct (ca_contents arguments) as [contents|]; [|by eexists _, _; eauto].
  destruct (isabs path); simpl; [|by eexists _, _; eauto].
  unfold mbind, M_bind. rewrite (os_path_exists_present _ _ _ Hc).
  by eexists _, _; eauto.
Qed.

(** A create request for a path that does not exist is the one call of
    [edit_file_contents] with the empty hash and the creation patch, inside
    the handler's [try]. *)
Lemma create_absent_is_edit (arguments : create_arguments)
    (path contents : string) (w : world) :
  ca_path arguments = Some path -> ca_contents arguments = Some contents ->
  isabs path = true -> disk w !! path = None ->
  create_run_tool editor arguments w
  = try_except
      (edit_file_contents editor path ""
         [make_patch (PyInt 1) PyNone (PyStr contents) (PyStr "")]
         (default "utf-8" (ca_encoding arguments)))
      reraise (log (OsPathExists path) w).
Proof.
  intros Hp Hc Habs Hno. unfold create_run_tool, try_except.
  rewrite Hp, Hc, Habs. simpl. unfold mbind, M_bind.
  rewrite (os_path_exists_absent _ _ Hno). unfold mret, M_ret.
  by destruct (edit_file_contents editor path "" _ _ _) as [[e|r] w'].
Qed.

(** ** The append tool *)

(** The comparison of lines 383-389 fails: the mismatch error is raised
    after the existence check and the read, and no edit is attempted. *)
Lemma append_hash_mismatch (arguments : append_arguments)
    (path contents file_hash : string) (rr : read_result) (w : world) :
  aa_path arguments = Some path -> aa_contents arguments = Some contents ->
  aa_file_hash arguments = Some file_hash ->
  isabs path = true -> is_Some (disk w !! path) ->
  let encoding := default "utf-8" (aa_encoding arguments) in
  editor_read_file_contents editor (disk w) path (Some encoding) = inr rr ->
  rr.1.1.2 <> file_hash ->
  append_run_tool editor arguments w
  = (inl (RuntimeError
            "Error processing request: File hash mismatch - file may have been modified"),
     log (ReadFileContents path (Some encoding)) (log (OsPathExists path) w)).
Proof.
  intros Hp Hc Hh Habs [old Hold] encoding Hread Hcmp.
  destruct rr as [[[[[content start] end_] current_hash] total_lines] size].
  simpl in Hcmp.
  unfold append_run_tool, try_except. rewrite Hp, Hc, Hh, Habs. simpl.
  unfold mbind, M_bind. rewrite (os_path_exists_present _ _ _ Hold). simpl.
  unfold read_file_contents. fold encoding.
  change (disk (log (OsPathExists path) w)) with (disk w). rewrite Hread.
  apply String.eqb_neq in Hcmp. by rewrite Hcmp.
Qed.

(** The comparison succeeds: the call is one edit with the append patch. *)
Lemma append_hash_match (arguments : append_arguments)
    (path contents file_hash : string) (rr : read_result) (w : world) :
  aa_path arguments = Some path -> aa_contents arguments = Some contents ->
  aa_file_hash arguments = Some file_hash ->
  isabs path = true -> is_Some (disk w !! path) ->
  let encoding := default "utf-8" (aa_encoding arguments) in
  editor_read_file_contents editor (disk w) path (Some encoding) = inr rr ->
  rr.1.1.2 = file_hash ->
  append_run_tool editor arguments w
  = try_except
      (edit_file_contents editor path file_hash
         [make_patch (PyInt (rr.1.2 + 1)) PyNone
            (PyStr (if endswith contents LF then contents else contents +:+ LF))
            (PyStr "")]
         encoding)
      reraise
      (log (ReadFileContents path (Some encoding)) (log (OsPathExists path) w)).
Proof.
  intros Hp Hc Hh Habs [old Hold] encoding Hread Hcmp.
  destruct rr as [[[[[content start] end_] current_hash] total_lines] size].
  simpl in Hcmp. simpl.
  unfold append_run_tool, try_except. rewrite Hp, Hc, Hh, Habs. simpl.
  unfold mbind, M_bind. rewrite (os_path_exists_present _ _ _ Hold). simpl.
  unfold read_file_contents. fold encoding.
  change (disk (log (OsPathExists path) w)) with (disk w). rewrite Hread.
  apply String.eqb_eq in Hcmp. rewrite Hcmp. simpl. unfold mret, M_ret.
  destruct (endswith contents LF); simpl;
    by destruct (edit_file_contents editor path file_hash _ _ _) as [[e|r] w''].
Qed.

(** The keys and values of the patch literal. *)
Lemma make_patch_keys (start end_ contents range_hash : pyval) :
  dom (make_patch start end_ contents range_hash)
  = list_to_set ["start"; "end"; "contents"; "range_hash"]
  /\ make_patch start end_ contents range_hash !! "start" = Some start
  /\ make_patch start end_ contents range_hash !! "end" = Some end_
  /\ make_patch start end_ contents range_hash !! "contents" = Some contents
  /\ make_patch start end_ contents range_hash !! "range_hash" = Some range_hash.
Proof.
  split; [|done]. unfold make_patch. by rewrite !dom_insert_L, dom_empty_L.
Qed.

(** One call of [edit_file_contents] inside a handler's [try]: the outcome
    is the result of the editor, or the error that quotes what it raised;
    the disk is the one the editor left, and the call is in the trace. *)
Lemma edit_in_try (path expected_hash : string) (patches : list pydict)
    (encoding : string) (w : world) :
  let edit :=
    editor_edit_file_contents editor (disk w) path expected_hash patches encoding in
  try_except (edit_file_contents editor path expected_hash patches encoding) reraise w
  = (match edit.1 with
     | inl e => inl (RuntimeError ("Error processing request: " +:+ str e))
     | inr result => inr result
     end,
     {| disk := edit.2;
        trace := trace w ++ [EditFileContents path expected_hash patches encoding] |}).
Proof.
  unfold try_except, edit_file_contents.
  by destruct (editor_edit_file_contents editor (disk w) path expected_hash patches
                 encoding) as [[e|r] d'].
Qed.

(** C7.  On an existing file the append tool reads the file, and compares
    the hash it read with the caller's token.  If they differ it raises
    the mismatch error after the existence check and the read, without any
    edit: the disk is untouched.  If they agree, the call is one call of
    the editor's [edit_file_contents] on the disk as it was, with the
    caller's token and a single patch: its keys are start, end, contents
    and range_hash; start is [total_lines + 1], where [total_lines] is the
    count that same read returned; end is [None]; range_hash is [""]; the
    contents are the caller's, closed by a line feed when they lack one.
    The call returns what the editor returns (an exception of the editor
    is raised as the error that quotes it) and leaves the disk the editor
    left. *)
Theorem append_is_checked_edit (arguments : append_arguments)
    (path contents file_hash content current_hash : string)
    (start end_ total_lines size : Z) (w : world) :
  aa_path arguments = Some path -> aa_contents arguments = Some contents ->
  aa_file_hash arguments = Some file_hash ->
  isabs path = true -> is_Some (disk w !! path) ->
  let encoding := default "utf-8" (aa_encoding arguments) in
  editor_read_file_contents editor (disk w) path (Some encoding)
  = inr (content, start, end_, current_hash, total_lines, size) ->
  let w' := log (ReadFileContents path (Some encoding)) (log (OsPathExists path) w) in
  let append_content :=
    if endswith contents LF then contents else contents +:+ LF in
  (current_hash <> file_hash ->
   append_run_tool editor arguments w
   = (inl (RuntimeError
             "Error processing request: File hash mismatch - file may have been modified"),
      w'))
  /\ (current_hash = file_hash ->
      exists patch : pydict,
        dom patch = list_to_set ["start"; "end"; "contents"; "range_hash"]
        /\ patch !! "start" = Some (PyInt (total_lines + 1))
        /\ patch !! "end" = Some PyNone
        /\ patch !! "contents" = Some (PyStr append_content)
        /\ patch !! "range_hash" = Some (PyStr "")
        /\ let edit :=
             editor_edit_file_contents editor (disk w) path file_hash [patch] encoding in
           append_run_tool editor arguments w
           = (match edit.1 with
              | inl e => inl (RuntimeError ("Error processing request: " +:+ str e))
              | inr result => inr result
              end,
              {| disk := edit.2;
                 trace := trace w'
                          ++ [EditFileContents path file_hash [patch] encoding] |})).
Proof.
  intros Hp Hc Hh Habs Hex encoding Hread w' append_content. split; intros Hcmp.
  - exact (append_hash_mismatch arguments path contents file_hash _ w
             Hp Hc Hh Habs Hex Hread Hcmp).
  - exists (make_patch (PyInt (total_lines + 1)) PyNone (PyStr append_content)
              (PyStr "")).
    destruct (make_patch_keys (PyInt (total_lines + 1)) PyNone (PyStr append_content)
                (PyStr "")) as (Hdom & Hs & He & Hcont & Hrh).
    do 5 (split; [done|]).
    rewrite (append_hash_match arguments path contents file_hash _ w
               Hp Hc Hh Habs Hex Hread Hcmp).
    fold encoding w' append_content. rewrite (edit_in_try _ _ _ _ w'). reflexivity.
Qed.

(** ** The delete tool *)

Lemma delete_patches_ok (ranges patches : list pydict) (w : world) :
  mapM patch_of_range ranges = Some patches ->
  delete_patches ranges w = (inr patches, w).
Proof.
  revert patches. induction ranges as [|r rest IH]; intros patches H.
  - by injection H as <-.
  - rewrite mapM_Some in H. destruct patches as [|p ps]; [by inversion H|].
    apply Forall2_cons_1 in H as [Hr Hrest]. rewrite <- mapM_Some in Hrest.
    unfold patch_of_range in Hr. simpl. unfold mbind at 1, M_bind, getitem.
    destruct (r !! "start") as [s|]; [|done].
    simpl in Hr. unfold mbind at 1. simpl.
    destruct (r !! "end") as [e|]; [|done].
    simpl in Hr. unfold mbind at 1. simpl.
    destruct (r !! "range_hash") as [h|]; [|done].
    simpl in Hr. injection Hr as <-. unfold mbind at 1. simpl.
    by rewrite (IH _ Hrest).
Qed.

(** Ranges that carry the three keys give one patch each, with the range's
    start, end and range hash, empty contents and the four keys of a
    patch. *)
Lemma patches_of_complete_ranges (ranges : list pydict) :
  Forall (fun r => is_Some (r !! "start") /\ is_Some (r !! "end")
                   /\ is_Some (r !! "range_hash")) ranges ->
  exists patches : list pydict,
    mapM patch_of_range ranges = Some patches
    /\ Forall2
         (fun r patch =>
            dom patch = list_to_set ["start"; "end"; "contents"; "range_hash"]
            /\ patch !! "start" = r !! "start"
            /\ patch !! "end" = r !! "end"
            /\ patch !! "contents" = Some (PyStr "")
            /\ patch !! "range_hash" = r !! "range_hash")
         ranges patches.
Proof.
  induction 1 as [|r rest ([s Hs] & [e He] & [h Hh]) _ (patches & Hmap & Hall)].
  { exists []. by split; [|constructor]. }
  exists (make_patch s e (PyStr "") h :: patches). split.
  - assert (patch_of_range r = Some (make_patch s e (PyStr "") h)) as Hpatch
      by (unfold patch_of_range; by rewrite Hs, He, Hh).
    cbn -[patch_of_range]. by rewrite Hpatch, Hmap.
  - constructor; [|done]. rewrite Hs, He, Hh.
    by destruct (make_patch_keys s e (PyStr "") h) as (? & ? & ? & ? & ?).
Qed.

(** With patches built from the ranges, the delete tool comes down to the
    edit call inside its [try], after the existence check. *)
Lemma delete_comes_down_to_edit (arguments : delete_arguments)
    (path file_hash : string) (ranges patches : list pydict) (w : world) :
  da_file_path arguments = Some path -> da_file_hash arguments = Some file_hash ->
  da_ranges arguments = Some ranges ->
  isabs path = true -> is_Some (disk w !! path) ->
  mapM patch_of_range ranges = Some patches ->
  delete_run_tool editor arguments w
  = try_except
      (edit_file_contents editor path file_hash patches
         (default "utf-8" (da_encoding arguments)))
      reraise (log (OsPathExists path) w).
Proof.
  intros Hp Hh Hr Habs [old Hold] Hpatches.
  unfold delete_run_tool, try_except. rewrite Hp, Hh, Hr, Habs. simpl.
  unfold mbind, M_bind. rewrite (os_path_exists_present _ _ _ Hold). simpl.
  rewrite (delete_patches_ok _ _ _ Hpatches). unfold mret, M_ret.
  by destruct (edit_file_contents editor path file_hash _ _ _) as [[e|r] w'].
Qed.

(** C8.  On an existing file, a delete request whose ranges carry start,
    end and range hash is one call of the editor's [edit_file_contents] on
    the disk as it was, with the caller's token and one patch per range,
    in order.  Each patch has the keys start, end, contents and
    range_hash: the start, end and range hash are those of its range, the
    contents are the empty string.  The call returns what the editor
    returns (an exception of the editor is raised as the error that
    quotes it) and leaves the disk the editor left. *)
Theorem delete_is_edit_with_empty_contents (arguments : delete_arguments)
    (path file_hash : string) (ranges : list pydict) (w : world) :
  da_file_path arguments = Some path -> da_file_hash arguments = Some file_hash ->
  da_ranges arguments = Some ranges ->
  isabs path = true -> is_Some (disk w !! path) ->
  Forall (fun r => is_Some (r !! "start") /\ is_Some (r !! "end")
                   /\ is_Some (r !! "range_hash")) ranges ->
  let encoding := default "utf-8" (da_encoding arguments) in
  exists patches : list pydict,
    Forall2
      (fun r patch =>
         dom patch = list_to_set ["start"; "end"; "contents"; "range_hash"]
         /\ patch !! "start" = r !! "start"
         /\ patch !! "end" = r !! "end"
         /\ patch !! "contents" = Some (PyStr "")
         /\ patch !! "range_hash" = r !! "range_hash")
      ranges patches
    /\ let edit :=
         editor_edit_file_contents editor (disk w) path file_hash patches encoding in
       delete_run_tool editor arguments w
       = (match edit.1 with
          | inl e => inl (RuntimeError ("Error processing request: " +:+ str e))
          | inr result => inr result
          end,
          {| disk := edit.2;
             trace := trace w
                      ++ [OsPathExists path;
                          EditFileContents path file_hash patches encoding] |}).
Proof.
  intros Hp Hh Hr Habs Hex Hranges encoding.
  destruct (patches_of_complete_ranges ranges Hranges) as (patches & Hpatches & Hall).
  exists patches. split; [exact Hall|].
  rewrite (delete_comes_down_to_edit arguments path file_hash ranges patches w
             Hp Hh Hr Habs Hex Hpatches).
  fold encoding. rewrite (edit_in_try _ _ _ _ (log (OsPathExists path) w)).
  simpl. by rewrite <- app_assoc.
Qed.

(** Building the patches does not touch the world. *)
Lemma delete_patches_world (ranges : list pydict) (w : world) :
  (delete_patches ranges w).2 = w.
Proof.
  induction ranges as [|r rest IH]; [done|].
  simpl. unfold mbind at 1, M_bind, getitem.
  destruct (r !! "start") as [s|]; [|done]. simpl. unfold mbind at 1. simpl.
  destruct (r !! "end") as [e|]; [|done]. simpl. unfold mbind at 1. simpl.
  destruct (r !! "range_hash") as [h|]; [|done]. simpl. unfold mbind at 1. simpl.
  destruct (delete_patches rest w) as [[e'|ps] w'] eqn:Hrest; simpl in *; congruence.
Qed.

(** Building the patches of ranges one of which has no ["end"] raises the
    [KeyError] of a key the comprehension indexes, in the world it started
    in; the key is ["end"] when every range satisfies the declared
    schema. *)
Lemma delete_patches_missing_end (ranges : list pydict) (w : world) :
  Exists (fun r => r !! "end" = None) ranges ->
  exists key,
    delete_patches ranges w = (inl (KeyError key), w)
    /\ key ∈ ["start"; "end"; "range_hash"]
    /\ (forallb satisfies_schema ranges = true -> key = "end").
Proof.
  induction ranges as [|r rest IH]; intros Hex; [by inversion Hex|].
  simpl. unfold mbind at 1, M_bind, getitem.
  destruct (r !! "start") as [s|] eqn:Hs; simpl.
  2:{ exists "start". split; [done|]. split; [set_solver|].
      intros [Hr _]%andb_prop. unfold satisfies_schema in Hr. simpl in Hr.
      rewrite Hs in Hr. by rewrite bool_decide_eq_false_2 in Hr; [|intros [? ?]]. }
  unfold mbind at 1. simpl.
  destruct (r !! "end") as [e|] eqn:He; simpl.
  2:{ exists "end". split; [done|]. split; [set_solver|done]. }
  unfold mbind at 1. simpl.
  destruct (r !! "range_hash") as [h|] eqn:Hh; simpl.
  2:{ exists "range_hash". split; [done|]. split; [set_solver|].
      intros [Hr _]%andb_prop. unfold satisfies_schema in Hr. simpl in Hr.
      rewrite Hh in Hr. rewrite (bool_decide_eq_false_2 (is_Some None)) in Hr;
        [|by intros [? ?]]. by rewrite andb_false_r in Hr. }
  unfold mbind at 1. simpl.
  apply Exists_cons in Hex as [Hbad|Hex]; [congruence|].
  destruct (IH Hex) as (key & Hrun & Hkey & Hschema).
  exists key. rewrite Hrun. split; [done|]. split; [done|].
  intros [_ Hrest]%andb_prop. by apply Hschema.
Qed.

(** C10.  The schema of the delete tool requires only ["start"] and
    ["range_hash"] of a range, yet the handler indexes ["end"] as well.  A
    request on an existing file one of whose ranges has no ["end"] fails
    as a whole with the lookup error of a missing key, after the existence
    check and before any edit: the disk is untouched and the editor is not
    called.  When every range satisfies the schema, the missing key
    reported is ['end']. *)
Theorem delete_range_needs_end (arguments : delete_arguments)
    (path file_hash : string) (ranges : list pydict) (w : world) :
  da_file_path arguments = Some path -> da_file_hash arguments = Some file_hash ->
  da_ranges arguments = Some ranges ->
  isabs path = true -> is_Some (disk w !! path) ->
  Exists (fun r => r !! "end" = None) ranges ->
  ("end" ∉ delete_range_required)
  /\ exists key,
       delete_run_tool editor arguments w
       = (inl (RuntimeError ("Error processing request: '" +:+ key +:+ "'")),
          log (OsPathExists path) w)
       /\ (forallb satisfies_schema ranges = true -> key = "end").
Proof.
  intros Hp Hh Hr Habs [old Hold] Hex. split.
  { unfold delete_range_required. intros Hin.
    repeat (apply elem_of_cons in Hin as [Hin|Hin]; [done|]).
    by apply elem_of_nil in Hin. }
  destruct (delete_patches_missing_end ranges (log (OsPathExists path) w) Hex)
    as (key & Hrun & _ & Hschema).
  exists key. split; [|done].
  unfold delete_run_tool, try_except. rewrite Hp, Hh, Hr, Habs. simpl.
  unfold mbind, M_bind. rewrite (os_path_exists_present _ _ _ Hold). simpl.
  by rewrite Hrun.
Qed.

End ToolFacts.

(** C6.  The create tool on a path that exists always raises and leaves
    the disk as it was, without an edit.  On a path that does not exist (an
    absolute one, with contents given) the call is the one call of
    [edit_file_contents] with expected hash [""] and the single patch
    [{start: 1, end: None, contents: contents, range_hash: ""}]; run on
    the editor of the specification, that call writes the contents to the
    path and reports their hash. *)
Theorem create_is_edit_of_absent_path {RM : Type} (editor : TextEditor RM)
    (arguments : create_arguments)
    (path : string) (w : world) :
  ca_path arguments = Some path ->
  (is_Some (disk w !! path) ->
   exists msg w',
     create_run_tool editor arguments w = (inl (RuntimeError msg), w')
     /\ disk w' = disk w
     /\ (w' = w \/ w' = log (OsPathExists path) w))
  /\ (forall contents : string,
       disk w !! path = None -> ca_contents arguments = Some contents ->
       isabs path = true ->
       let encoding := default "utf-8" (ca_encoding arguments) in
       let patch := make_patch (PyInt 1) PyNone (PyStr contents) (PyStr "") in
       create_run_tool editor arguments w
       = try_except (edit_file_contents editor path "" [patch] encoding)
           reraise (log (OsPathExists path) w)
       /\ forall hash : string -> string,
            create_run_tool (SpecEditor.editor hash) arguments w
            = (inr (SpecEditor.ok_result (hash contents)),
               {| disk := <[path := contents]> (disk w);
                  trace := trace w
                           ++ [OsPathExists path;
                               EditFileContents path "" [patch] encoding] |})).
Proof.
  intros Hp. split.
  - by apply create_existing_fails.
  - intros contents Hno Hc Habs encoding patch. split.
    + by apply create_absent_is_edit.
    + intros hash.
      rewrite (create_absent_is_edit (SpecEditor.editor hash) arguments path contents w
                 Hp Hc Habs Hno).
      unfold try_except, edit_file_contents. simpl.
      rewrite (spec_edit_create hash (disk w) path contents _ Hno).
      by rewrite <- app_assoc.
Qed.


(** ** Stale tokens *)

(** C1.  With the editor of the specification, a request on an existing
    file whose token is not the hash of the file's content is a conflict
    in every tool that takes a token, and the disk is left as it was: the
    edit tool records the editor's "file hash mismatch" error under the
    path, the append tool raises its mismatch error before any edit, and
    the delete tool either fails while building its patches or returns
    the same conflict.  No patch is applied. *)
Theorem stale_file_hash_is_conflict (hash : string -> string)
    (path token content : string) (w : world) :
  disk w !! path = Some content -> isabs path = true -> token <> hash content ->
  let editor := SpecEditor.editor hash in
  let conflict := error_result "file hash mismatch" (PyStr (hash content)) in
  (forall (arguments : edit_arguments) (op : FileOperation)
          (patches : list pydict) (results : gmap string pydict),
     fo_path op = Some path -> patches <> [] ->
     edit_one editor arguments op path token patches results w
     = (inr (<[path := conflict]> results),
        {| disk := disk w;
           trace := trace w ++ [EditFileContents path token patches
                                  (default "utf-8" (ea_encoding arguments))] |}))
  /\ (forall (arguments : append_arguments) (contents : string),
        aa_path arguments = Some path -> aa_contents arguments = Some contents ->
        aa_file_hash arguments = Some token ->
        append_run_tool editor arguments w
        = (inl (RuntimeError
                  "Error processing request: File hash mismatch - file may have been modified"),
           log (ReadFileContents path (Some (default "utf-8" (aa_encoding arguments))))
             (log (OsPathExists path) w)))
  /\ (forall (arguments : delete_arguments) (ranges : list pydict),
        da_file_path arguments = Some path -> da_file_hash arguments = Some token ->
        da_ranges arguments = Some ranges ->
        let out := delete_run_tool editor arguments w in
        disk out.2 = disk w
        /\ ((exists msg, out.1 = inl (RuntimeError msg)) \/ out.1 = inr conflict)).
Proof.
  intros Hd Habs Hstale editor conflict. split; [|split].
  - intros arguments op patches results Hp Hne.
    destruct patches as [|p ps]; [done|].
    unfold edit_one, try_except, mbind, M_bind, edit_file_contents. simpl.
    by rewrite (spec_edit_stale hash (disk w) path token content _ _ Hd Hstale).
  - intros arguments contents Hp Hc Hh.
    eapply (append_hash_mismatch editor arguments path contents token _ w Hp Hc Hh Habs).
    + by eexists.
    + simpl. apply (spec_read_hash hash (disk w) path content _ Hd).
    + simpl. congruence.
  - intros arguments ranges Hp Hh Hr out.
    unfold out, delete_run_tool, try_except. rewrite Hp, Hh, Hr, Habs. simpl.
    unfold mbind, M_bind. rewrite (os_path_exists_present _ _ _ Hd). simpl.
    pose proof (delete_patches_world ranges (log (OsPathExists path) w)) as Hw.
    destruct (delete_patches ranges (log (OsPathExists path) w)) as [[e|ps] w'];
      simpl in Hw; subst w'; [split; [done|left; by eexists]|].
    unfold edit_file_contents. simpl.
    rewrite (spec_edit_stale hash (disk w) path token content _ _ Hd Hstale).
    split; [done|by right].
Qed.

(** ** The hash of an error entry *)

(** C5, amended.  For a file operation of an edit batch with patches: when
    the editor raises, the entry is the error of that exception with the
    hash the editor reads from the disk the failed edit left, or [None]
    when that read raises; when the editor of the specification returns an
    error result, that result is the entry, the disk is as it was, and its
    hash is the hash of the file on disk, or [None] when there is no file.
    For an empty patches list the entry carries the token of the caller,
    and nothing is read. *)
Theorem error_entry_file_hash {RM : Type} (editor : TextEditor RM)
    (arguments : edit_arguments) (op : FileOperation)
    (path file_hash : string) (patches : list pydict)
    (results : gmap string pydict) (w : world) :
  fo_path op = Some path ->
  let encoding := default "utf-8" (ea_encoding arguments) in
  (forall (e : exn) (d' : gmap string string),
     patches <> [] ->
     editor_edit_file_contents editor (disk w) path file_hash patches encoding
     = (inl e, d') ->
     (edit_one editor arguments op path file_hash patches results w).1
     = inr (<[path := error_result (str e) (current_hash editor d' path)]> results))
  /\ (forall (hash : string -> string) (r : pydict) (d' : gmap string string),
        patches <> [] ->
        SpecEditor.edit_file_contents hash (disk w) path file_hash patches encoding
        = (inr r, d') ->
        r !! "result" = Some (PyStr "error") ->
        (edit_one (SpecEditor.editor hash) arguments op path file_hash patches results w).1
        = inr (<[path := r]> results)
        /\ d' = disk w
        /\ r !! "file_hash"
           = Some (current_hash (SpecEditor.editor hash) (disk w) path))
  /\ (patches = [] ->
      edit_one editor arguments op path file_hash patches results w
      = (inr (<[path := error_result "Empty patches list" (PyStr file_hash)]> results),
         w)).
Proof.
  intros Hp encoding. split; [|split].
  - intros e d' Hne Hedit.
    pose proof (edit_one_entry editor arguments op path file_hash patches results w Hp)
      as [H1 _].
    rewrite H1. unfold file_entry. destruct patches as [|p ps]; [done|].
    fold encoding. by rewrite Hedit.
  - intros hash r d' Hne Hedit Herr.
    destruct (spec_edit_error_hash hash _ _ _ _ _ _ _ Hedit Herr) as [-> Hhash].
    split; [|split; [done|]].
    + pose proof (edit_one_entry (SpecEditor.editor hash) arguments op path file_hash
                    patches results w Hp) as [H2 _].
      rewrite H2. unfold file_entry. destruct patches as [|p ps]; [done|].
      fold encoding. simpl. by rewrite Hedit.
    + rewrite Hhash. unfold current_hash. simpl.
      destruct (disk w !! path) as [content|] eqn:Hd.
      * by rewrite (spec_read_hash hash _ _ _ _ Hd).
      * by rewrite (spec_read_absent hash _ _ _ Hd).
  - by intros ->.
Qed.

(** ** Relative paths *)

(** The read tool checks every path before it calls the editor: a request
    with a relative path raises in the world it started in. *)
Lemma get_check_paths_relative (files : list FileInfo) (w : world) :
  Exists (fun fi => exists p, fi_file_path fi = Some p /\ isabs p = false) files ->
  exists e, get_check_paths files w = (inl e, w).
Proof.
  induction files as [|fi rest IH]; intros Hex; [by inversion Hex|].
  simpl. destruct (fi_file_path fi) as [p|] eqn:Hp; [|by eexists].
  destruct (isabs p) eqn:Habs; simpl; [|by eexists].
  apply Exists_cons in Hex as [(q & Hq & Hrel)|Hex]; [congruence|].
  by apply IH.
Qed.

Lemma get_relative_path_rejected {RM : Type} (editor : TextEditor RM)
    (arguments : get_arguments) (files : list FileInfo) (w : world) :
  ga_files arguments = Some files ->
  Exists (fun fi => exists p, fi_file_path fi = Some p /\ isabs p = false) files ->
  exists msg, get_run_tool editor arguments w = (inl (RuntimeError msg), w).
Proof.
  intros Hfiles Hex. unfold get_run_tool, try_except. rewrite Hfiles.
  unfold mbind, M_bind.
  destruct (get_check_paths_relative files w Hex) as [e ->].
  destruct e; by eexists.
Qed.

(** C3, the edit tool at a failing request.  The first file operation is
    the replace patch of the specification's scenario on ["/f.txt"], the
    second has a relative path.  Whatever the editor, the call raises the
    validation error of the second only after the first was run: the
    first call in the trace is the edit of ["/f.txt"], and the disk is the
    one that edit left.  With the editor of the specification, line 2 of
    ["/f.txt"] is rewritten by then. *)
Theorem edit_relative_path_found_late {RM : Type} (editor : TextEditor RM) :
  let out := edit_run_tool editor Sample.late_relative_request Sample.world0 in
  let first_edit :=
    editor_edit_file_contents editor (disk Sample.world0) "/f.txt"
      (SpecEditor.content_hash Sample.abc) [Sample.patch_B] "utf-8" in
  out.1 = inl (RuntimeError
                 "Error processing request: File path must be absolute: rel.txt")
  /\ trace out.2 !! 0%nat
     = Some (EditFileContents "/f.txt" (SpecEditor.content_hash Sample.abc)
               [Sample.patch_B] "utf-8")
  /\ disk out.2 = first_edit.2
  /\ disk (edit_run_tool Sample.spec_editor Sample.late_relative_request
             Sample.world0).2
     = <["/f.txt" := Sample.aBc]> ∅.
Proof.
  intros out first_edit. unfold out, first_edit.
  unfold edit_run_tool, try_except, Sample.late_relative_request. simpl.
  unfold edit_one, try_except, mbind, M_bind, edit_file_contents, read_file_contents.
  simpl.
  destruct (editor_edit_file_contents editor _ "/f.txt" _ _ _) as [[e|r] d'];
    simpl.
  - destruct (editor_read_file_contents editor d' "/f.txt" None)
      as [e'|[[[[[? ?] ?] h] ?] ?]]; simpl; repeat split; by vm_compute.
  - repeat split; by vm_compute.
Qed.

(** C5 as stated fails for an empty patches list: the error entry of
    ["/f.txt"] carries the token ["stale"] of the caller, which is not the
    hash of the file on disk. *)
Lemma empty_patches_entry_echoes_token :
  let arguments :=
    {| ea_files := Some [ {| fo_path := Some "/f.txt"; fo_file_hash := Some "stale";
                             fo_patches := Some [] |} ];
       ea_encoding := None |} in
  exists entry : pydict,
    (edit_run_tool Sample.spec_editor arguments Sample.world0).1
    = inr {[ "/f.txt" := entry ]}
    /\ entry !! "result" = Some (PyStr "error")
    /\ entry !! "file_hash" = Some (PyStr "stale")
    /\ current_hash Sample.spec_editor (disk Sample.world0) "/f.txt"
       = PyStr (SpecEditor.content_hash Sample.abc)
    /\ entry !! "file_hash"
       <> Some (current_hash Sample.spec_editor (disk Sample.world0) "/f.txt").
Proof.
  eexists. split; [reflexivity|]. split; [reflexivity|]. split; [reflexivity|].
  split; [by vm_compute|]. by vm_compute.
Qed.

(** C2 as stated fails for a file operation that does not pass the checks
    of lines 190-201, which stand in the loop but outside the [try] of the
    file.  A first operation without ["file_hash"] is not recorded as the
    error entry of its file: the call raises, and the operation on
    ["/f.txt"] that follows it is not processed (no call of the editor,
    the disk as it was).  Put second, the same operation makes the call
    raise after ["/f.txt"] was rewritten, and no result is returned for
    either file. *)
Lemma edit_entry_check_aborts_call :
  let good :=
    {| fo_path := Some "/f.txt";
       fo_file_hash := Some (SpecEditor.content_hash Sample.abc);
       fo_patches := Some [Sample.patch_B] |} in
  let bad :=
    {| fo_path := Some "/g.txt"; fo_file_hash := None;
       fo_patches := Some [Sample.patch_B] |} in
  edit_run_tool Sample.spec_editor
    {| ea_files := Some [bad; good]; ea_encoding := None |} Sample.world0
  = (inl (RuntimeError "Error processing request: Missing required field: file_hash"),
     Sample.world0)
  /\ edit_run_tool Sample.spec_editor
       {| ea_files := Some [good; bad]; ea_encoding := None |} Sample.world0
     = (inl (RuntimeError "Error processing request: Missing required field: file_hash"),
        {| disk := <["/f.txt" := Sample.aBc]> ∅;
           trace := [EditFileContents "/f.txt" (SpecEditor.content_hash Sample.abc)
                       [Sample.patch_B] "utf-8"] |}).
Proof.
  split; by vm_compute.
Qed.

(** ** Instances *)

Lemma stale_file_hash_is_conflict_witness :
  append_run_tool Sample.spec_editor
    {| aa_path := Some "/f.txt"; aa_contents := Some "d";
       aa_file_hash := Some "stale"; aa_encoding := None |}
    Sample.world0
  = (inl (RuntimeError
            "Error processing request: File hash mismatch - file may have been modified"),
     log (ReadFileContents "/f.txt" (Some "utf-8"))
       (log (OsPathExists "/f.txt") Sample.world0)).
Proof.
  assert ("stale" <> SpecEditor.content_hash Sample.abc) as Hstale
    by (apply String.eqb_neq; reflexivity).
  apply (proj1 (proj2 (stale_file_hash_is_conflict SpecEditor.content_hash
                         "/f.txt" "stale" Sample.abc Sample.world0
                         eq_refl eq_refl Hstale))
           {| aa_path := Some "/f.txt"; aa_contents := Some "d";
              aa_file_hash := Some "stale"; aa_encoding := None |} "d");
    reflexivity.
Defined.

Lemma edit_batch_failures_stay_per_file_witness :
  let arguments :=
    {| ea_files := Some
         [ {| fo_path := Some "/f.txt";
              fo_file_hash := Some (SpecEditor.content_hash Sample.abc);
              fo_patches := Some [Sample.patch_B] |};
           {| fo_path := Some "/g.txt"; fo_file_hash := Some "";
              fo_patches := Some [] |} ];
       ea_encoding := None |} in
  exists (results : gmap string pydict) (entry : pydict),
    (edit_run_tool Sample.read_only_editor arguments Sample.world0).1 = inr results
    /\ results !! "/f.txt" = Some entry
    /\ entry !! "result" = Some (PyStr "error")
    /\ entry !! "reason" = Some (PyStr "Permission denied: /f.txt")
    /\ entry !! "file_hash" = Some (PyStr (SpecEditor.content_hash Sample.abc))
    /\ is_Some (results !! "/g.txt").
Proof.
  intros arguments.
  destruct (proj1 (proj2 (edit_batch_failures_stay_per_file Sample.read_only_editor
                            arguments Sample.world0) _ eq_refl) eq_refl)
    as (Hout & _ & Hall & _ & Hraised).
  destruct (Hraised [] [ {| fo_path := Some "/g.txt"; fo_file_hash := Some "";
                            fo_patches := Some [] |} ]
              "/f.txt" (SpecEditor.content_hash Sample.abc) [Sample.patch_B]
              (EditorError "PermissionError" "Permission denied: /f.txt")
              (disk Sample.world0) eq_refl)
    as (entry & Hentry & Hresult & Hreason & Hhash).
  - intros Hin. apply elem_of_cons in Hin as [Hin|Hin]; [discriminate Hin|].
    by apply elem_of_nil in Hin.
  - discriminate.
  - reflexivity.
  - destruct (Hall {| fo_path := Some "/g.txt"; fo_file_hash := Some "";
                      fo_patches := Some [] |}) as (path & Hpath & Hg).
    { apply list_elem_of_further, list_elem_of_here. }
    injection Hpath as <-.
    eexists _, entry. split; [exact Hout|]. split; [exact Hentry|].
    split; [exact Hresult|]. split; [exact Hreason|]. split; [exact Hhash|exact Hg].
Defined.

Lemma empty_patches_immediate_error_witness :
  edit_loop Sample.spec_editor {| ea_files := None; ea_encoding := None |}
    [ {| fo_path := Some "/f.txt"; fo_file_hash := Some "stale";
         fo_patches := Some [] |} ] ∅ Sample.world0
  = (inr {[ "/f.txt" := error_result "Empty patches list" (PyStr "stale") ]},
     Sample.world0).
Proof.
  apply (proj2 (empty_patches_immediate_error Sample.spec_editor
                  {| ea_files := None; ea_encoding := None |}
                  "/f.txt" "stale" [] ∅ Sample.world0 eq_refl)).
Defined.

Lemma error_entry_file_hash_witness :
  (edit_one Sample.read_only_editor {| ea_files := None; ea_encoding := None |}
     {| fo_path := Some "/f.txt"; fo_file_hash := Some "stale";
        fo_patches := Some [Sample.patch_B] |}
     "/f.txt" "stale" [Sample.patch_B] ∅ Sample.world0).1
  = inr {[ "/f.txt" := error_result "Permission denied: /f.txt"
                         (PyStr (SpecEditor.content_hash Sample.abc)) ]}.
Proof.
  apply (proj1 (error_entry_file_hash Sample.read_only_editor
                  {| ea_files := None; ea_encoding := None |}
                  {| fo_path := Some "/f.txt"; fo_file_hash := Some "stale";
                     fo_patches := Some [Sample.patch_B] |}
                  "/f.txt" "stale" [Sample.patch_B] ∅ Sample.world0 eq_refl)
           (EditorError "PermissionError" "Permission denied: /f.txt")
           (disk Sample.world0)).
  - discriminate.
  - reflexivity.
Defined.

Lemma create_is_edit_of_absent_path_witness :
  create_run_tool Sample.spec_editor
    {| ca_path := Some "/new.txt"; ca_contents := Some ("hello" +:+ LF);
       ca_encoding := None |}
    Sample.world0
  = (inr (SpecEditor.ok_result (SpecEditor.content_hash ("hello" +:+ LF))),
     {| disk := <["/new.txt" := "hello" +:+ LF]> (disk Sample.world0);
        trace := [OsPathExists "/new.txt";
                  EditFileContents "/new.txt" ""
                    [make_patch (PyInt 1) PyNone (PyStr ("hello" +:+ LF)) (PyStr "")]
                    "utf-8"] |}).
Proof.
  apply (proj2 (proj2 (create_is_edit_of_absent_path Sample.spec_editor
                         {| ca_path := Some "/new.txt";
                            ca_contents := Some ("hello" +:+ LF);
                            ca_encoding := None |}
                         "/new.txt" Sample.world0 eq_refl)
                  ("hello" +:+ LF) eq_refl eq_refl eq_refl)
           SpecEditor.content_hash).
Defined.

Lemma append_is_checked_edit_witness :
  let arguments :=
    {| aa_path := Some "/f.txt"; aa_contents := Some "d";
       aa_file_hash := Some (SpecEditor.content_hash Sample.abc);
       aa_encoding := None |} in
  exists patch : pydict,
    dom patch = list_to_set ["start"; "end"; "contents"; "range_hash"]
    /\ patch !! "start" = Some (PyInt 4)
    /\ patch !! "end" = Some PyNone
    /\ patch !! "contents" = Some (PyStr ("d" +:+ LF))
    /\ patch !! "range_hash" = Some (PyStr "")
    /\ let edit :=
         editor_edit_file_contents Sample.spec_editor (disk Sample.world0) "/f.txt"
           (SpecEditor.content_hash Sample.abc) [patch] "utf-8" in
       append_run_tool Sample.spec_editor arguments Sample.world0
       = (match edit.1 with
          | inl e => inl (RuntimeError ("Error processing request: " +:+ str e))
          | inr result => inr result
          end,
          {| disk := edit.2;
             trace := [OsPathExists "/f.txt";
                       ReadFileContents "/f.txt" (Some "utf-8");
                       EditFileContents "/f.txt"
                         (SpecEditor.content_hash Sample.abc) [patch] "utf-8"] |}).
Proof.
  intros arguments.
  exact (proj2 (append_is_checked_edit Sample.spec_editor arguments
                  "/f.txt" "d" (SpecEditor.content_hash Sample.abc)
                  Sample.abc (SpecEditor.content_hash Sample.abc) 1 3 3 6
                  Sample.world0 eq_refl eq_refl eq_refl eq_refl
                  (ex_intro _ Sample.abc eq_refl) eq_refl)
           eq_refl).
Defined.

Lemma delete_is_edit_with_empty_contents_witness :
  let range : pydict :=
    <["start" := PyInt 2]>
      (<["end" := PyInt 2]>
         (<["range_hash" := PyStr (SpecEditor.content_hash ("b" +:+ LF))]> ∅)) in
  exists patch : pydict,
    dom patch = list_to_set ["start"; "end"; "contents"; "range_hash"]
    /\ patch !! "start" = Some (PyInt 2)
    /\ patch !! "end" = Some (PyInt 2)
    /\ patch !! "contents" = Some (PyStr "")
    /\ patch !! "range_hash" = Some (PyStr (SpecEditor.content_hash ("b" +:+ LF)))
    /\ let edit :=
         editor_edit_file_contents Sample.spec_editor (disk Sample.world0) "/f.txt"
           (SpecEditor.content_hash Sample.abc) [patch] "utf-8" in
       delete_run_tool Sample.spec_editor
         {| da_file_path := Some "/f.txt";
            da_file_hash := Some (SpecEditor.content_hash Sample.abc);
            da_ranges := Some [range]; da_encoding := None |}
         Sample.world0
       = (match edit.1 with
          | inl e => inl (RuntimeError ("Error processing request: " +:+ str e))
          | inr result => inr result
          end,
          {| disk := edit.2;
             trace := [OsPathExists "/f.txt";
                       EditFileContents "/f.txt"
                         (SpecEditor.content_hash Sample.abc) [patch] "utf-8"] |}).
Proof.
  intros range.
  destruct (delete_is_edit_with_empty_contents Sample.spec_editor
              {| da_file_path := Some "/f.txt";
                 da_file_hash := Some (SpecEditor.content_hash Sample.abc);
                 da_ranges := Some [range]; da_encoding := None |}
              "/f.txt" (SpecEditor.content_hash Sample.abc) [range] Sample.world0
              eq_refl eq_refl eq_refl eq_refl (ex_intro _ Sample.abc eq_refl)
              (List.Forall_cons _ range []
                 (conj (ex_intro _ (PyInt 2) eq_refl)
                    (conj (ex_intro _ (PyInt 2) eq_refl)
                       (ex_intro _ (PyStr (SpecEditor.content_hash ("b" +:+ LF)))
                          eq_refl)))
                 (List.Forall_nil _)))
    as (patches & Hall & Hrun).
  inversion Hall as [|r patch rest patches' (Hdom & Hs & He & Hc & Hrh) Hrest];
    subst.
  inversion Hrest; subst.
  exists patch. do 5 (split; [assumption|]). exact Hrun.
Defined.

Lemma delete_range_needs_end_witness :
  let range : pydict :=
    <["start" := PyInt 2]>
      (<["range_hash" := PyStr (SpecEditor.content_hash ("b" +:+ LF))]> ∅) in
  delete_run_tool Sample.spec_editor
    {| da_file_path := Some "/f.txt";
       da_file_hash := Some (SpecEditor.content_hash Sample.abc);
       da_ranges := Some [range]; da_encoding := None |}
    Sample.world0
  = (inl (RuntimeError "Error processing request: 'end'"),
     log (OsPathExists "/f.txt") Sample.world0).
Proof.
  intros range.
  destruct (proj2 (delete_range_needs_end Sample.spec_editor
                     {| da_file_path := Some "/f.txt";
                        da_file_hash := Some (SpecEditor.content_hash Sample.abc);
                        da_ranges := Some [range]; da_encoding := None |}
                     "/f.txt" (SpecEditor.content_hash Sample.abc) [range]
                     Sample.world0
                     eq_refl eq_refl eq_refl eq_refl (ex_intro _ Sample.abc eq_refl)
                     (Exists_cons_hd _ range [] eq_refl)))
    as (key & Hrun & Hkey).
  rewrite Hrun. by rewrite (Hkey eq_refl).
Defined.

Lemma edit_empty_batch_witness :
  edit_run_tool Sample.spec_editor {| ea_files := Some []; ea_encoding := None |}
    Sample.world0
  = (inr ∅, Sample.world0).
Proof.
  apply (edit_empty_batch Sample.spec_editor
           {| ea_files := Some []; ea_encoding := None |} [] Sample.world0);
    reflexivity.
Defined.

(** ** The scenarios of the specification, run on its editor *)

(** Replacing line 2 of the three-line file with the right tokens succeeds
    and reports the hash of the new content. *)
Example scenario_replace :
  let out := edit_run_tool Sample.spec_editor Sample.replace_request Sample.world0 in
  out.1 = inr {[ "/f.txt" := SpecEditor.ok_result
                               (SpecEditor.content_hash Sample.aBc) ]}
  /\ disk out.2 = {[ "/f.txt" := Sample.aBc ]}.
Proof. by vm_compute. Qed.

(** Running the same request again, now with a stale token, is a conflict
    that reports the hash of the updated file and leaves it as it is. *)
Example scenario_replace_again :
  let w1 := (edit_run_tool Sample.spec_editor Sample.replace_request Sample.world0).2 in
  let out := edit_run_tool Sample.spec_editor Sample.replace_request w1 in
  out.1 = inr {[ "/f.txt" := error_result "file hash mismatch"
                               (PyStr (SpecEditor.content_hash Sample.aBc)) ]}
  /\ disk out.2 = disk w1.
Proof. by vm_compute. Qed.

(** Appending ["d\n"] to the three-line file. *)
Example scenario_append :
  let out :=
    append_run_tool Sample.spec_editor
      {| aa_path := Some "/f.txt"; aa_contents := Some ("d" +:+ LF);
         aa_file_hash := Some (SpecEditor.content_hash Sample.abc);
         aa_encoding := None |}
      Sample.world0 in
  disk out.2 = {[ "/f.txt" := Sample.abc +:+ "d" +:+ LF ]}.
Proof. by vm_compute. Qed.

(** Creating a file, and creating it again. *)
Example scenario_create_twice :
  let arguments :=
    {| ca_path := Some "/new.txt"; ca_contents := Some ("hello" +:+ LF);
       ca_encoding := None |} in
  let w1 := (create_run_tool Sample.spec_editor arguments Sample.world0).2 in
  disk w1 !! "/new.txt" = Some ("hello" +:+ LF)
  /\ (create_run_tool Sample.spec_editor arguments w1).1
     = inl (RuntimeError "Error processing request: File already exists: /new.txt")
  /\ disk (create_run_tool Sample.spec_editor arguments w1).2 = disk w1.
Proof. by vm_compute. Qed.

(** Deleting line 2 of the three-line file. *)
Example scenario_delete :
  let range : pydict :=
    <["start" := PyInt 2]>
      (<["end" := PyInt 2]>
         (<["range_hash" := PyStr (SpecEditor.content_hash ("b" +:+ LF))]> ∅)) in
  let out :=
    delete_run_tool Sample.spec_editor
      {| da_file_path := Some "/f.txt";
         da_file_hash := Some (SpecEditor.content_hash Sample.abc);
         da_ranges := Some [range]; da_encoding := None |}
      Sample.world0 in
  disk out.2 = {[ "/f.txt" := "a" +:+ LF +:+ "c" +:+ LF ]}.
Proof. by vm_compute. Qed.

(** * Further properties of the handlers *)

(** ** What escapes a handler *)

(** The last [except] clause turns whatever the body raises into a
    [RuntimeError] that quotes it. *)
Lemma try_except_reraise {A : Type} (body : M A) (w : world) (e : exn) :
  (try_except body reraise w).1 = inl e ->
  exists cause, e = RuntimeError ("Error processing request: " +:+ str cause).
Proof.
  unfold try_except, reraise, raise.
  destruct (body w) as [[cause|a] w']; simpl; [|done].
  intros [= <-]. by exists cause.
Qed.

Section ReadTool.
Context {RM : Type} (editor : TextEditor RM).

(** ** The read tool *)

(** Entries with an absolute path pass the checking loop. *)
Lemma get_check_paths_app (pre rest : list FileInfo) (w : world) :
  Forall (fun f => exists q, fi_file_path f = Some q /\ isabs q = true) pre ->
  get_check_paths (pre ++ rest) w = get_check_paths rest w.
Proof.
  induction 1 as [|f pre (q & Hq & Habs) _ IH]; [done|].
  simpl. by rewrite Hq, Habs.
Qed.

Lemma get_check_paths_ok (files : list FileInfo) (w : world) :
  Forall (fun f => exists q, fi_file_path f = Some q /\ isabs q = true) files ->
  get_check_paths files w = (inr tt, w).
Proof.
  intros H. rewrite <- (app_nil_r files). by rewrite get_check_paths_app.
Qed.

(** X1.  The read tool checks the paths of all entries before it calls the
    editor: when the first entry that fails the check has a relative
    path, the call raises the error naming that path, in the world it
    started in; nothing is read, whatever comes before or after the
    entry. *)
Theorem get_rejects_relative_path (arguments : get_arguments)
    (pre post : list FileInfo) (fi : FileInfo) (p : string) (w : world) :
  ga_files arguments = Some (pre ++ fi :: post)%list ->
  Forall (fun f => exists q, fi_file_path f = Some q /\ isabs q = true) pre ->
  fi_file_path fi = Some p -> isabs p = false ->
  get_run_tool editor arguments w
  = (inl (RuntimeError
            ("Error processing request: File path must be absolute: " +:+ p)),
     w).
Proof.
  intros Hfiles Hpre Hp Hrel. unfold get_run_tool, try_except. rewrite Hfiles.
  unfold mbind, M_bind. rewrite (get_check_paths_app _ _ _ Hpre).
  simpl. by rewrite Hp, Hrel.
Qed.

(** X2.  An entry of the read tool without ["file_path"] stops the call in
    the same way, before the editor is called; the [KeyError] is reported
    as a missing argument, with the key quoted twice (once by [str(e)],
    once by the message). *)
Theorem get_reports_missing_file_path (arguments : get_arguments)
    (pre post : list FileInfo) (fi : FileInfo) (w : world) :
  ga_files arguments = Some (pre ++ fi :: post)%list ->
  Forall (fun f => exists q, fi_file_path f = Some q /\ isabs q = true) pre ->
  fi_file_path fi = None ->
  get_run_tool editor arguments w
  = (inl (RuntimeError "Missing required argument: ''file_path''"), w).
Proof.
  intros Hfiles Hpre Hp. unfold get_run_tool, try_except. rewrite Hfiles.
  unfold mbind, M_bind. rewrite (get_check_paths_app _ _ _ Hpre).
  simpl. by rewrite Hp.
Qed.

(** X3.  When every entry has an absolute path, the read tool is one call
    of [read_multiple_ranges] with the list as it came and the encoding
    (["utf-8"] when absent); entries are not checked for ["ranges"].  The
    document of the editor is returned untouched.  A [KeyError] of the
    editor is reported as a missing argument, any other exception as a
    processing error. *)
Theorem get_is_one_editor_call (arguments : get_arguments)
    (files : list FileInfo) (w : world) :
  ga_files arguments = Some files ->
  Forall (fun f => exists q, fi_file_path f = Some q /\ isabs q = true) files ->
  let encoding := default "utf-8" (ga_encoding arguments) in
  get_run_tool editor arguments w
  = (match editor_read_multiple_ranges editor (disk w) files encoding with
     | inr result => inr result
     | inl (KeyError key) =>
         inl (RuntimeError ("Missing required argument: ''" +:+ key +:+ "''"))
     | inl e => inl (RuntimeError ("Error processing request: " +:+ str e))
     end,
     log (ReadMultipleRanges files encoding) w).
Proof.
  intros Hfiles Hok encoding. unfold get_run_tool, try_except. rewrite Hfiles.
  unfold mbind, M_bind. rewrite (get_check_paths_ok _ _ Hok).
  unfold read_multiple_ranges. fold encoding.
  destruct (editor_read_multiple_ranges editor (disk w) files encoding)
    as [[msg|key|cls msg]|result]; try done.
  unfold raise, str. do 3 f_equal.
  change ("Missing required argument: ''" +:+ key +:+ "''")
    with ("Missing required argument: '" +:+ "'" +:+ key +:+ "'" +:+ "'").
  by rewrite !string_app_assoc.
Qed.

End ReadTool.

(** X4.  No handler lets anything but a [RuntimeError] out.  What the edit,
    create, append and delete tools raise quotes its cause after "Error
    processing request: "; the read tool does the same, or reports a
    [KeyError] as a missing argument. *)
Theorem handlers_raise_only_RuntimeError {RM : Type} (editor : TextEditor RM)
    (w : world) (e : exn) :
  (forall a, (get_run_tool editor a w).1 = inl e ->
     (exists cause, e = RuntimeError ("Error processing request: " +:+ str cause))
     \/ (exists key,
           e = RuntimeError ("Missing required argument: '" +:+ str (KeyError key) +:+ "'")))
  /\ (forall a, (edit_run_tool editor a w).1 = inl e ->
        exists cause, e = RuntimeError ("Error processing request: " +:+ str cause))
  /\ (forall a, (create_run_tool editor a w).1 = inl e ->
        exists cause, e = RuntimeError ("Error processing request: " +:+ str cause))
  /\ (forall a, (append_run_tool editor a w).1 = inl e ->
        exists cause, e = RuntimeError ("Error processing request: " +:+ str cause))
  /\ (forall a, (delete_run_tool editor a w).1 = inl e ->
        exists cause, e = RuntimeError ("Error processing request: " +:+ str cause)).
Proof.
  split; [|repeat split; intros a; apply try_except_reraise].
  intros a. unfold get_run_tool, try_except.
  match goal with |- context [match ?body w with _ => _ end] =>
    destruct (body w) as [[[msg|key|cls msg]|r] w'] end; simpl; [| | |done].
  - intros [= <-]. left. by exists (RuntimeError msg).
  - intros [= <-]. right. by exists key.
  - intros [= <-]. left. by exists (EditorError cls msg).
Qed.

Section EditTool.
Context {RM : Type} (editor : TextEditor RM).

(** ** The edit tool *)

(** The call is the loop inside the handler's [try], also for the empty
    list. *)
Lemma edit_run_tool_loop (arguments : edit_arguments) (files : list FileOperation)
    (w : world) :
  ea_files arguments = Some files ->
  edit_run_tool editor arguments w
  = try_except (edit_loop editor arguments files ∅) reraise w.
Proof.
  intros Hfiles. unfold edit_run_tool. rewrite Hfiles. by destruct files.
Qed.

(** File operations that pass the checks are run one after the other; the
    rest of the list starts from what they left. *)
Lemma edit_loop_app (arguments : edit_arguments) (pre rest : list FileOperation)
    (results : gmap string pydict) (w : world) :
  forallb well_formed pre = true ->
  exists results' w',
    edit_loop editor arguments pre results w = (inr results', w')
    /\ edit_loop editor arguments (pre ++ rest) results w
       = edit_loop editor arguments rest results' w'.
Proof.
  revert results w. induction pre as [|op pre IH]; intros results w Hwf.
  { by exists results, w. }
  simpl in Hwf. apply andb_prop in Hwf as [Hop Hpre].
  unfold well_formed in Hop.
  destruct (fo_path op) as [path|] eqn:Hp; [|done].
  destruct (fo_file_hash op) as [file_hash|] eqn:Hh; [|done].
  destruct (fo_patches op) as [patches|] eqn:Hs; [|done].
  rewrite <- app_comm_cons.
  rewrite !(edit_loop_cons editor arguments op path file_hash patches _ _ _ Hp Hh Hs Hop).
  pose proof (edit_one_entry editor arguments op path file_hash patches results w Hp)
    as [H1 _].
  unfold mbind, M_bind.
  destruct (edit_one editor arguments op path file_hash patches results w)
    as [[e|results1] w1]; simpl in H1; [done|].
  apply IH, Hpre.
Qed.

(** X5.  The checks of a file operation are made when the loop reaches it.
    If the file operations before it all pass and it fails one, the call
    raises the error of the first check it fails, the world is the one the
    operations before it left (their edits are on disk), and the
    operations after it are never looked at. *)
Theorem edit_aborts_at_first_failed_check (arguments : edit_arguments)
    (pre post : list FileOperation) (bad : FileOperation) (msg : string)
    (w : world) :
  ea_files arguments = Some (pre ++ bad :: post)%list ->
  forallb well_formed pre = true ->
  failed_check bad = Some msg ->
  let out := edit_run_tool editor arguments w in
  out.1 = inl (RuntimeError ("Error processing request: " +:+ msg))
  /\ out.2 = (edit_loop editor arguments pre ∅ w).2
  /\ disk out.2
     = (batch editor (default "utf-8" (ea_encoding arguments)) pre ∅ (disk w)).2.
Proof.
  intros Hfiles Hpre Hbad out. unfold out.
  rewrite (edit_run_tool_loop _ _ _ Hfiles). unfold try_except.
  destruct (edit_loop_app arguments pre (bad :: post) ∅ w Hpre)
    as (results' & w' & Hrun & ->).
  pose proof (edit_loop_batch editor arguments pre ∅ w Hpre) as [_ Hdisk].
  rewrite Hrun in *. simpl in Hdisk.
  assert (edit_loop editor arguments (bad :: post) results' w'
          = (inl (RuntimeError msg), w')) as ->.
  { unfold failed_check in Hbad. simpl.
    destruct (fo_path bad) as [path|]; [|by injection Hbad as <-].
    destruct (fo_file_hash bad) as [file_hash|]; [|by injection Hbad as <-].
    destruct (fo_patches bad) as [patches|]; [|by injection Hbad as <-].
    destruct (isabs path); [done|]. by injection Hbad as <-. }
  done.
Qed.

(** What one file operation adds to the calls of [edit_file_contents]. *)
Lemma edit_one_calls (arguments : edit_arguments) (op : FileOperation)
    (path file_hash : string) (patches : list pydict)
    (results : gmap string pydict) (w : world) :
  fo_path op = Some path ->
  edit_calls (trace (edit_one editor arguments op path file_hash patches results w).2)
  = (edit_calls (trace w)
     ++ match patches with
        | [] => []
        | _ => [EditFileContents path file_hash patches
                  (default "utf-8" (ea_encoding arguments))]
        end)%list.
Proof.
  intros Hp. unfold edit_one, try_except. rewrite Hp.
  destruct patches as [|p ps]; [by rewrite app_nil_r|].
  unfold mbind, M_bind, edit_file_contents, read_file_contents.
  destruct (editor_edit_file_contents editor (disk w) path file_hash (p :: ps) _)
    as [[e|result] d']; simpl.
  - destruct (editor_read_file_contents editor d' path None)
      as [e'|[[[[[? ?] ?] h] ?] ?]]; simpl;
      unfold edit_calls; by rewrite !List.filter_app, app_nil_r.
  - unfold edit_calls. by rewrite List.filter_app.
Qed.

Lemma edit_loop_calls (arguments : edit_arguments) (files : list FileOperation)
    (results : gmap string pydict) (w : world) :
  forallb well_formed files = true ->
  edit_calls (trace (edit_loop editor arguments files results w).2)
  = (edit_calls (trace w)
     ++ expected_edit_calls (default "utf-8" (ea_encoding arguments)) files)%list.
Proof.
  revert results w. induction files as [|op rest IH]; intros results w Hwf.
  { simpl. by rewrite app_nil_r. }
  simpl in Hwf. apply andb_prop in Hwf as [Hop Hrest].
  unfold well_formed in Hop.
  destruct (fo_path op) as [path|] eqn:Hp; [|done].
  destruct (fo_file_hash op) as [file_hash|] eqn:Hh; [|done].
  destruct (fo_patches op) as [patches|] eqn:Hs; [|done].
  rewrite (edit_loop_cons editor arguments op path file_hash patches _ _ _ Hp Hh Hs Hop).
  pose proof (edit_one_entry editor arguments op path file_hash patches results w Hp)
    as [H1 _].
  pose proof (edit_one_calls arguments op path file_hash patches results w Hp) as Hcalls.
  unfold mbind, M_bind.
  destruct (edit_one editor arguments op path file_hash patches results w)
    as [[e|results1] w1]; simpl in H1, Hcalls; [done|].
  rewrite (IH _ _ Hrest), Hcalls. unfold expected_edit_calls. simpl.
  rewrite Hp, Hh, Hs. rewrite <- app_assoc. by destruct patches.
Qed.

(** X6.  In an edit batch whose file operations pass the checks, the editor
    is asked to edit once for every file operation that has patches, in
    the order of the request, with the path, token and patches of the
    caller and the encoding of the request (["utf-8"] when absent); a file
    operation without patches asks for none. *)
Theorem edit_calls_follow_request (arguments : edit_arguments)
    (files : list FileOperation) (w : world) :
  ea_files arguments = Some files ->
  forallb well_formed files = true ->
  edit_calls (trace (edit_run_tool editor arguments w).2)
  = (edit_calls (trace w)
     ++ expected_edit_calls (default "utf-8" (ea_encoding arguments)) files)%list.
Proof.
  intros Hfiles Hwf. rewrite (edit_run_tool_loop _ _ _ Hfiles).
  pose proof (edit_loop_calls arguments files ∅ w Hwf) as Hcalls.
  pose proof (edit_loop_batch editor arguments files ∅ w Hwf) as [H1 _].
  unfold try_except.
  by destruct (edit_loop editor arguments files ∅ w) as [[e|r] w'].
Qed.

End EditTool.

(** The keys of the mapping of a batch are the paths of its file
    operations. *)
Lemma batch_dom {RM : Type} (editor : TextEditor RM) (encoding : string)
    (files : list FileOperation) (results : gmap string pydict)
    (d : gmap string string) :
  forallb well_formed files = true ->
  dom (batch editor encoding files results d).1
  = dom results ∪ list_to_set (omap fo_path files).
Proof.
  revert results d. induction files as [|op rest IH]; intros results d Hwf.
  { simpl. by rewrite union_empty_r_L. }
  simpl in Hwf. apply andb_prop in Hwf as [Hop Hrest].
  unfold well_formed in Hop. simpl.
  destruct (fo_path op) as [path|] eqn:Hp; [|done].
  destruct (fo_file_hash op) as [file_hash|]; [|done].
  destruct (fo_patches op) as [patches|]; [|done].
  destruct (file_entry editor encoding path file_hash patches d) as [entry d'].
  rewrite (IH _ _ Hrest). rewrite dom_insert_L. simpl.
  rewrite (comm_L (∪) {[path]} (dom results)). by rewrite <- (assoc_L (∪)).
Qed.

Lemma well_formed_paths_absolute (files : list FileOperation) (p : string) :
  forallb well_formed files = true -> p ∈ omap fo_path files -> isabs p = true.
Proof.
  induction files as [|op rest IH]; intros Hwf Hin.
  { by apply elem_of_nil in Hin. }
  simpl in Hwf. apply andb_prop in Hwf as [Hop Hrest].
  unfold well_formed in Hop. simpl in Hin.
  destruct (fo_path op) as [path|]; [|done].
  destruct (fo_file_hash op); [|done]. destruct (fo_patches op); [|done].
  apply elem_of_cons in Hin as [->|Hin]; [done|]. by apply IH.
Qed.

(** X7.  When the edit tool returns, the keys of the result mapping are
    the paths of the request's file operations, no more and no fewer (two
    operations on one path share a key); every key is an absolute path,
    so the fallback key ["unknown"] of line 232 is never written. *)
Theorem edit_result_keys {RM : Type} (editor : TextEditor RM)
    (arguments : edit_arguments) (files : list FileOperation)
    (results : gmap string pydict) (w : world) :
  ea_files arguments = Some files ->
  (edit_run_tool editor arguments w).1 = inr results ->
  dom results = list_to_set (omap fo_path files)
  /\ (forall key, key ∈ dom results -> isabs key = true)
  /\ results !! "unknown" = None.
Proof.
  intros Hfiles Hrun. rewrite (edit_run_tool_loop editor _ _ _ Hfiles) in Hrun.
  unfold try_except in Hrun.
  destruct (forallb well_formed files) eqn:Hwf.
  2:{ destruct (edit_loop_ill_formed editor arguments files ∅ w Hwf) as [msg H].
      by destruct (edit_loop editor arguments files ∅ w) as [[e|r] w']. }
  pose proof (edit_loop_batch editor arguments files ∅ w Hwf) as [H1 _].
  destruct (edit_loop editor arguments files ∅ w) as [[e|r] w']; [done|].
  simpl in H1, Hrun. injection H1 as H1. injection Hrun as <-. subst r.
  assert (dom (batch editor (default "utf-8" (ea_encoding arguments)) files ∅ (disk w)).1
          = list_to_set (omap fo_path files)) as Hdom.
  { rewrite (batch_dom _ _ _ _ _ Hwf). by rewrite dom_empty_L, union_empty_l_L. }
  assert (forall key,
            key ∈ dom (batch editor (default "utf-8" (ea_encoding arguments))
                         files ∅ (disk w)).1 -> isabs key = true) as Habs.
  { intros key Hkey. rewrite Hdom in Hkey. apply elem_of_list_to_set in Hkey.
    by apply (well_formed_paths_absolute files). }
  split; [done|]. split; [done|].
  apply not_elem_of_dom. intros Hin. by apply Habs in Hin.
Qed.

(** ** The create, append and delete tools *)




(** The events a call added to the trace. *)
Lemma new_events (t new : list event) : drop (length t) (t ++ new) = new.
Proof. by rewrite drop_app_length. Qed.

(** Closes a goal whose hypothesis puts an edit call in a list of calls
    that has none. *)
Ltac no_edit H :=
  repeat (apply elem_of_cons in H as [H|H]; [discriminate H|]);
  by apply elem_of_nil in H.

Section SingleFileTools.
Context {RM : Type} (editor : TextEditor RM).

(** X8.  The create, append and delete tools check that the path is
    absolute before they touch the disk: with a relative path each raises
    the error naming the path in the world it started in, without even
    asking whether the file exists. *)
Theorem single_file_tools_reject_relative_path (p : string) (w : world) :
  isabs p = false ->
  let failure :=
    (inl (RuntimeError ("Error processing request: File path must be absolute: " +:+ p)),
     w) in
  (forall (a : create_arguments) (contents : string),
     ca_path a = Some p -> ca_contents a = Some contents ->
     create_run_tool editor a w = failure)
  /\ (forall (a : append_arguments) (contents file_hash : string),
        aa_path a = Some p -> aa_contents a = Some contents ->
        aa_file_hash a = Some file_hash ->
        append_run_tool editor a w = failure)
  /\ (forall (a : delete_arguments) (file_hash : string) (ranges : list pydict),
        da_file_path a = Some p -> da_file_hash a = Some file_hash ->
        da_ranges a = Some ranges ->
        delete_run_tool editor a w = failure).
Proof.
  intros Hrel failure. split; [|split].
  - intros a contents Hp Hc. unfold create_run_tool, try_except.
    by rewrite Hp, Hc, Hrel.
  - intros a contents file_hash Hp Hc Hh. unfold append_run_tool, try_except.
    by rewrite Hp, Hc, Hh, Hrel.
  - intros a file_hash ranges Hp Hh Hr. unfold delete_run_tool, try_except.
    by rewrite Hp, Hh, Hr, Hrel.
Qed.

(** X9.  The append and delete tools refuse a path without file: the call
    raises "File does not exist" after the existence check alone; the file
    is not read, the ranges are not looked at, and the editor is not
    called. *)
Theorem append_and_delete_need_the_file (p : string) (w : world) :
  isabs p = true -> disk w !! p = None ->
  let failure :=
    (inl (RuntimeError ("Error processing request: File does not exist: " +:+ p)),
     log (OsPathExists p) w) in
  (forall (a : append_arguments) (contents file_hash : string),
     aa_path a = Some p -> aa_contents a = Some contents ->
     aa_file_hash a = Some file_hash ->
     append_run_tool editor a w = failure)
  /\ (forall (a : delete_arguments) (file_hash : string) (ranges : list pydict),
        da_file_path a = Some p -> da_file_hash a = Some file_hash ->
        da_ranges a = Some ranges ->
        delete_run_tool editor a w = failure).
Proof.
  intros Habs Hno failure. split.
  - intros a contents file_hash Hp Hc Hh. unfold append_run_tool, try_except.
    rewrite Hp, Hc, Hh, Habs. simpl. unfold mbind, M_bind.
    by rewrite (os_path_exists_absent _ _ Hno).
  - intros a file_hash ranges Hp Hh Hr. unfold delete_run_tool, try_except.
    rewrite Hp, Hh, Hr, Habs. simpl. unfold mbind, M_bind.
    by rewrite (os_path_exists_absent _ _ Hno).
Qed.

(** X10.  When the read of the append tool raises, the call raises the
    error that quotes it, after the existence check and the read; the
    editor is not asked to edit and the disk is as it was. *)
Theorem append_read_failure (a : append_arguments)
    (p contents file_hash : string) (e : exn) (w : world) :
  aa_path a = Some p -> aa_contents a = Some contents ->
  aa_file_hash a = Some file_hash ->
  isabs p = true -> is_Some (disk w !! p) ->
  let encoding := default "utf-8" (aa_encoding a) in
  editor_read_file_contents editor (disk w) p (Some encoding) = inl e ->
  append_run_tool editor a w
  = (inl (RuntimeError ("Error processing request: " +:+ str e)),
     log (ReadFileContents p (Some encoding)) (log (OsPathExists p) w)).
Proof.
  intros Hp Hc Hh Habs [old Hold] encoding Hread.
  unfold append_run_tool, try_except. rewrite Hp, Hc, Hh, Habs. simpl.
  unfold mbind, M_bind. rewrite (os_path_exists_present _ _ _ Hold). simpl.
  unfold read_file_contents. fold encoding.
  change (disk (log (OsPathExists p) w)) with (disk w). by rewrite Hread.
Qed.


End SingleFileTools.

Section EditCallShapes.
Context {RM : Type} (editor : TextEditor RM).

(** The comprehension of the delete tool, read backwards: the patches it
    returns are those of [patch_of_range], and the world is untouched. *)
Lemma delete_patches_inv (ranges patches : list pydict) (w w' : world) :
  delete_patches ranges w = (inr patches, w') ->
  w' = w /\ mapM patch_of_range ranges = Some patches.
Proof.
  revert patches. induction ranges as [|r rest IH]; intros patches.
  { simpl. by intros [= <- <-]. }
  simpl. unfold mbind at 1, M_bind, getitem, patch_of_range.
  destruct (r !! "start") as [s|]; [|done]. simpl. unfold mbind at 1. simpl.
  destruct (r !! "end") as [e|]; [|done]. simpl. unfold mbind at 1. simpl.
  destruct (r !! "range_hash") as [h|]; [|done]. simpl. unfold mbind at 1. simpl.
  destruct (delete_patches rest w) as [[e'|ps] w1] eqn:Hrest; [done|].
  simpl. intros [= <- <-]. destruct (IH ps eq_refl) as [-> Hps].
  split; [done|]. fold patch_of_range. by rewrite Hps.
Qed.

(** A patch of the delete tool has the four keys of a patch and no other,
    and its contents are empty, whatever else the range carried. *)
Lemma patch_of_range_keys (r patch : pydict) :
  patch_of_range r = Some patch ->
  dom patch = list_to_set ["start"; "end"; "contents"; "range_hash"]
  /\ patch !! "contents" = Some (PyStr "")
  /\ patch !! "start" = r !! "start" /\ patch !! "end" = r !! "end"
  /\ patch !! "range_hash" = r !! "range_hash".
Proof.
  unfold patch_of_range.
  destruct (r !! "start") as [s|]; [|done].
  destruct (r !! "end") as [e|]; [|done].
  destruct (r !! "range_hash") as [h|]; [|done].
  simpl. intros [= <-]. split; [|done].
  unfold make_patch. by rewrite !dom_insert_L, dom_empty_L.
Qed.

(** X12.  Whatever the request, an edit the delete tool asks of the editor
    is on the caller's absolute path, which has a file, with the caller's
    token, and with one patch per range, in order.  Each patch has the
    start, end and range hash of its range, empty contents, and these four
    keys only: a ["contents"] or any other key of a range never reaches
    the editor. *)
Theorem delete_edit_call_shape (a : delete_arguments) (w : world)
    (p h encoding : string) (ps : list pydict) :
  EditFileContents p h ps encoding
    ∈ drop (length (trace w)) (trace (delete_run_tool editor a w).2) ->
  da_file_path a = Some p /\ da_file_hash a = Some h
  /\ encoding = default "utf-8" (da_encoding a)
  /\ isabs p = true /\ is_Some (disk w !! p)
  /\ exists ranges : list pydict,
       da_ranges a = Some ranges
       /\ Forall2
            (fun r patch =>
               dom patch = list_to_set ["start"; "end"; "contents"; "range_hash"]
               /\ patch !! "contents" = Some (PyStr "")
               /\ patch !! "start" = r !! "start" /\ patch !! "end" = r !! "end"
               /\ patch !! "range_hash" = r !! "range_hash")
            ranges ps.
Proof.
  unfold delete_run_tool, try_except.
  destruct (da_file_path a) as [path|]; simpl;
    [|by rewrite drop_all; intros Hin; no_edit Hin].
  destruct (da_file_hash a) as [file_hash|]; simpl;
    [|by rewrite drop_all; intros Hin; no_edit Hin].
  destruct (da_ranges a) as [ranges|]; simpl;
    [|by rewrite drop_all; intros Hin; no_edit Hin].
  destruct (isabs path) eqn:Habs; simpl;
    [|by rewrite drop_all; intros Hin; no_edit Hin].
  unfold mbind, M_bind, os_path_exists.
  destruct (disk w !! path) as [old|] eqn:Hold.
  2:{ rewrite bool_decide_eq_false_2 by (by intros [? ?]). simpl.
      rewrite new_events. intros Hin. no_edit Hin. }
  rewrite bool_decide_eq_true_2 by (by eexists). simpl.
  pose proof (delete_patches_world ranges (log (OsPathExists path) w)) as Hw.
  destruct (delete_patches ranges (log (OsPathExists path) w)) as [[e|patches] w1]
    eqn:Hpatches; simpl in Hw; subst w1.
  { simpl. rewrite new_events. intros Hin. no_edit Hin. }
  apply delete_patches_inv in Hpatches as [_ Hpatches].
  unfold edit_file_contents. simpl.
  destruct (editor_edit_file_contents editor (disk w) path file_hash _ _) as [r d'].
  intros Hin.
  assert (EditFileContents p h ps encoding
          ∈ [OsPathExists path;
             EditFileContents path file_hash patches
               (default "utf-8" (da_encoding a))]) as Hin'.
  { destruct r as [e|x]; simpl in Hin;
      by rewrite <- !app_assoc, new_events in Hin. }
  clear Hin.
  apply elem_of_cons in Hin' as [|Hin]; [done|].
  apply elem_of_cons in Hin as [Hin|Hin]; [|by apply elem_of_nil in Hin].
  injection Hin as -> -> -> ->.
  do 4 (split; [done|]). split; [by eexists|].
  exists ranges. split; [done|].
  rewrite mapM_Some in Hpatches.
  clear -Hpatches.
  induction Hpatches as [|r0 patch rs patches' Hr _ IH]; constructor; [|done].
  by apply patch_of_range_keys.
Qed.

(** X13.  Whatever the request, an edit the create tool asks of the editor
    is on the caller's absolute path, which has no file yet, with the
    empty token and the single patch
    [{start: 1, end: None, contents: contents, range_hash: ""}]: the tool
    never asks for an edit of a path that exists. *)
Theorem create_edit_call_shape (a : create_arguments) (w : world)
    (p h encoding : string) (ps : list pydict) :
  EditFileContents p h ps encoding
    ∈ drop (length (trace w)) (trace (create_run_tool editor a w).2) ->
  ca_path a = Some p /\ h = ""
  /\ encoding = default "utf-8" (ca_encoding a)
  /\ isabs p = true /\ disk w !! p = None
  /\ exists contents : string,
       ca_contents a = Some contents
       /\ ps = [make_patch (PyInt 1) PyNone (PyStr contents) (PyStr "")].
Proof.
  unfold create_run_tool, try_except.
  destruct (ca_path a) as [path|]; simpl;
    [|by rewrite drop_all; intros Hin; no_edit Hin].
  destruct (ca_contents a) as [contents|]; simpl;
    [|by rewrite drop_all; intros Hin; no_edit Hin].
  destruct (isabs path) eqn:Habs; simpl;
    [|by rewrite drop_all; intros Hin; no_edit Hin].
  unfold mbind, M_bind, os_path_exists.
  destruct (disk w !! path) as [old|] eqn:Hold.
  { rewrite bool_decide_eq_true_2 by (by eexists). simpl.
    rewrite new_events. intros Hin. no_edit Hin. }
  rewrite bool_decide_eq_false_2 by (by intros [? ?]). simpl.
  unfold edit_file_contents. simpl.
  destruct (editor_edit_file_contents editor (disk w) path "" _ _) as [r d'].
  intros Hin.
  assert (EditFileContents p h ps encoding
          ∈ [OsPathExists path;
             EditFileContents path ""
               [make_patch (PyInt 1) PyNone (PyStr contents) (PyStr "")]
               (default "utf-8" (ca_encoding a))]) as Hin'.
  { destruct r as [e|x]; simpl in Hin;
      by rewrite <- !app_assoc, new_events in Hin. }
  clear Hin.
  apply elem_of_cons in Hin' as [|Hin]; [done|].
  apply elem_of_cons in Hin as [Hin|Hin]; [|by apply elem_of_nil in Hin].
  injection Hin as -> -> -> ->.
  do 5 (split; [done|]). by exists contents.
Qed.

End EditCallShapes.

(** ** The dispatcher and the tool descriptions *)

(** What the read tool raises. *)
Lemma get_failure_shape {RM : Type} (editor : TextEditor RM)
    (a : get_arguments) (w : world) (e : exn) :
  (get_run_tool editor a w).1 = inl e ->
  (exists cause, e = RuntimeError ("Error processing request: " +:+ str cause))
  \/ (exists key,
        e = RuntimeError ("Missing required argument: '" +:+ str (KeyError key) +:+ "'")).
Proof.
  unfold get_run_tool, try_except.
  match goal with |- context [match ?body w with _ => _ end] =>
    destruct (body w) as [[[msg|key|cls msg]|r] w'] end; simpl; [| | |done].
  - intros [= <-]. left. by exists (RuntimeError msg).
  - intros [= <-]. right. by exists key.
  - intros [= <-]. left. by exists (EditorError cls msg).
Qed.

(** A handler that raises only [RuntimeError] has its failures passed on
    by the dispatcher under "Error executing command: ". *)
Lemma dispatch_failure {RM A : Type} (run : M A) (wrap : A -> tool_output RM)
    (w : world) (e : exn) :
  (forall e', (run w).1 = inl e' -> exists msg, e' = RuntimeError msg) ->
  (try_except (r ← run; mret (wrap r))
     (fun e =>
        match e with
        | EditorError cls _ =>
            if String.eqb cls "ValueError" then raise e
            else raise (RuntimeError ("Error executing command: " +:+ str e))
        | _ => raise (RuntimeError ("Error executing command: " +:+ str e))
        end) w).1 = inl e ->
  exists msg, (run w).1 = inl (RuntimeError msg)
              /\ e = RuntimeError ("Error executing command: " +:+ msg).
Proof.
  intros Honly. unfold try_except, mbind, M_bind.
  destruct (run w) as [[e'|r] w'] eqn:Hrun; simpl; [|done].
  destruct (Honly e' eq_refl) as [msg ->]. simpl. intros [= <-]. by exists msg.
Qed.

(** The five names of [list_tools]. *)
Lemma tool_names_eq :
  tool_names
  = [get_contents_handler_name; edit_contents_handler_name; create_file_handler_name;
     append_file_handler_name; delete_contents_handler_name].
Proof. reflexivity. Qed.

Section Dispatcher.
Context {RM : Type} (editor : TextEditor RM).

(** X14.  A name that [list_tools] does not advertise makes [call_tool]
    raise [ValueError("Unknown tool: ...")], not wrapped, in the world it
    started in: no handler runs. *)
Theorem call_tool_unknown_name (name : string) (arguments : raw_arguments)
    (w : world) :
  name ∉ tool_names ->
  call_tool editor name arguments w
  = (inl (ValueError ("Unknown tool: " +:+ name)), w).
Proof.
  intros Hname. rewrite tool_names_eq in Hname.
  do 5 (apply not_elem_of_cons in Hname as [?%String.eqb_neq Hname]).
  unfold call_tool, try_except.
  by repeat match goal with H : String.eqb name _ = false |- _ => rewrite H; clear H end.
Qed.

(** X15.  For a name that [list_tools] advertises, [call_tool] never raises
    [ValueError]: a failure is the [RuntimeError] of the handler, passed on
    under "Error executing command: ", so its message reads "Error
    executing command: Error processing request: ..." (or "... Missing
    required argument: ..." from the read tool). *)
Theorem call_tool_known_name_failure (name : string) (arguments : raw_arguments)
    (w : world) (e : exn) :
  name ∈ tool_names ->
  (call_tool editor name arguments w).1 = inl e ->
  (exists cause,
     e = RuntimeError ("Error executing command: "
                       +:+ "Error processing request: " +:+ str cause))
  \/ (exists key,
        e = RuntimeError ("Error executing command: "
                          +:+ "Missing required argument: '"
                          +:+ str (KeyError key) +:+ "'")).
Proof.
  intros Hname Hrun. rewrite tool_names_eq in Hname.
  repeat (apply elem_of_cons in Hname as [->|Hname]);
    [..|by apply elem_of_nil in Hname];
    unfold call_tool in Hrun; simpl in Hrun;
    apply dispatch_failure in Hrun as (msg & Hmsg & ->).
  - apply get_failure_shape in Hmsg as [[cause [= ->]]|[key [= ->]]];
      [left; by exists cause|right; by exists key].
  - intros e' He'. apply get_failure_shape in He' as [[c ->]|[k ->]]; by eexists.
  - apply try_except_reraise in Hmsg as [cause [= ->]]. left. by exists cause.
  - intros e' He'. apply try_except_reraise in He' as [c ->]. by eexists.
  - apply try_except_reraise in Hmsg as [cause [= ->]]. left. by exists cause.
  - intros e' He'. apply try_except_reraise in He' as [c ->]. by eexists.
  - apply try_except_reraise in Hmsg as [cause [= ->]]. left. by exists cause.
  - intros e' He'. apply try_except_reraise in He' as [c ->]. by eexists.
  - apply try_except_reraise in Hmsg as [cause [= ->]]. left. by exists cause.
  - intros e' He'. apply try_except_reraise in He' as [c ->]. by eexists.
Qed.

(** X16.  Every key the input schema of a tool lists as required is
    checked by its handler before the disk is touched: a request without
    it makes [call_tool] raise a [RuntimeError] in the world it started
    in. *)
Theorem required_keys_are_enforced (tool : Tool) (key : string)
    (arguments : raw_arguments) (w : world) :
  tool ∈ list_tools ->
  key ∈ schema_required (tool_inputSchema tool) ->
  has_key arguments key = false ->
  exists msg,
    call_tool editor (tool_name tool) arguments w = (inl (RuntimeError msg), w).
Proof.
  intros Htool Hkey Hhas. unfold list_tools in Htool.
  repeat (apply elem_of_cons in Htool as [->|Htool]);
    [..|by apply elem_of_nil in Htool];
    cbv [tool_inputSchema tool_name
         get_contents_handler_get_tool_description
         edit_contents_handler_get_tool_description
         create_file_handler_get_tool_description
         append_file_handler_get_tool_description
         delete_contents_handler_get_tool_description] in *;
    vm_compute in Hkey;
    repeat (apply elem_of_cons in Hkey as [->|Hkey]);
    try (by apply elem_of_nil in Hkey);
    unfold has_key in Hhas; simpl in Hhas;
    apply bool_decide_eq_false_1 in Hhas;
    unfold call_tool, try_except; simpl.
  all: unfold mbind, M_bind, get_run_tool, edit_run_tool, create_run_tool,
         append_run_tool, delete_run_tool, try_except; simpl.
  - destruct (ra_files arguments); [destruct Hhas; by eexists|]. by eexists.
  - destruct (ra_files arguments); [destruct Hhas; by eexists|]. by eexists.
  - destruct (ra_path arguments); [destruct Hhas; by eexists|]. by eexists.
  - destruct (ra_contents arguments); [destruct Hhas; by eexists|].
    destruct (ra_path arguments); by eexists.
  - destruct (ra_path arguments); [destruct Hhas; by eexists|]. by eexists.
  - destruct (ra_contents arguments); [destruct Hhas; by eexists|].
    destruct (ra_path arguments); by eexists.
  - destruct (ra_file_hash arguments); [destruct Hhas; by eexists|].
    destruct (ra_path arguments); [|by eexists].
    destruct (ra_contents arguments); by eexists.
  - destruct (ra_file_path arguments); [destruct Hhas; by eexists|]. by eexists.
  - destruct (ra_file_hash arguments); [destruct Hhas; by eexists|].
    destruct (ra_file_path arguments); by eexists.
  - destruct (ra_ranges arguments); [destruct Hhas; by eexists|].
    destruct (ra_file_path arguments); [|by eexists].
    destruct (ra_file_hash arguments); by eexists.
Qed.

End Dispatcher.

Section Defaults.
Context {RM : Type} (editor : TextEditor RM).

(** The edit tool looks at the encoding only through its default. *)
Lemma edit_loop_encoding (a1 a2 : edit_arguments) (files : list FileOperation)
    (results : gmap string pydict) (w : world) :
  default "utf-8" (ea_encoding a1) = default "utf-8" (ea_encoding a2) ->
  edit_loop editor a1 files results w = edit_loop editor a2 files results w.
Proof.
  intros Henc. revert results w. induction files as [|op rest IH]; intros results w.
  { done. }
  simpl. destruct (fo_path op) as [path|]; [|done].
  destruct (fo_file_hash op) as [file_hash|]; [|done].
  destruct (fo_patches op) as [patches|]; [|done].
  destruct (isabs path); [|done]. simpl.
  unfold mbind, M_bind.
  assert (edit_one editor a1 op path file_hash patches results w
          = edit_one editor a2 op path file_hash patches results w) as ->.
  { unfold edit_one. by rewrite Henc. }
  destruct (edit_one editor a2 op path file_hash patches results w) as [[e|r] w'];
    [done|apply IH].
Qed.

Lemma edit_run_tool_encoding (a1 a2 : edit_arguments) (w : world) :
  ea_files a1 = ea_files a2 ->
  default "utf-8" (ea_encoding a1) = default "utf-8" (ea_encoding a2) ->
  edit_run_tool editor a1 w = edit_run_tool editor a2 w.
Proof.
  intros Hfiles Henc. unfold edit_run_tool, try_except. rewrite Hfiles.
  destruct (ea_files a2) as [files|]; [|done].
  destruct (length files =? 0)%nat; [done|].
  by rewrite (edit_loop_encoding a1 a2 _ _ _ Henc).
Qed.

(** X17.  Every tool [list_tools] advertises declares ["utf-8"] as the
    default of ["encoding"] in its input schema, and its handler applies
    that same default: on every request and every world, the call without
    ["encoding"] has the outcome, the disk and the trace of calls of the
    call that spells ["utf-8"] out. *)
Theorem omitted_encoding_is_declared_default (tool : Tool) :
  tool ∈ list_tools ->
  schema_default "encoding" (tool_inputSchema tool) = Some "utf-8"
  /\ forall (arguments : raw_arguments) (w : world),
       call_tool editor (tool_name tool) (with_encoding None arguments) w
       = call_tool editor (tool_name tool) (with_encoding (Some "utf-8") arguments) w.
Proof.
  intros Htool. unfold list_tools in Htool.
  repeat (apply elem_of_cons in Htool as [->|Htool]);
    [..|by apply elem_of_nil in Htool];
    (split; [reflexivity|]); intros arguments w;
    unfold call_tool; simpl; try reflexivity.
  unfold try_except, mbind, M_bind.
  by rewrite (edit_run_tool_encoding
                (edit_view (with_encoding None arguments))
                (edit_view (with_encoding (Some "utf-8") arguments))).
Qed.

(** The checks of lines 189-201 on one file operation, key by key. *)
Lemma well_formed_keys (op : FileOperation) :
  well_formed op = true
  <-> forallb (operation_has_key op) ["path"; "file_hash"; "patches"] = true
      /\ exists p, fo_path op = Some p /\ isabs p = true.
Proof.
  unfold well_formed, operation_has_key. simpl.
  destruct (fo_path op) as [p|], (fo_file_hash op) as [h|], (fo_patches op) as [ps|];
    simpl; split; try done; try (by intros [? ?]); try (by intros [_ (? & ? & ?)]).
  - intros Habs. split; [done|]. by exists p.
  - by intros [_ (q & [= <-] & Habs)].
Qed.

(** X18.  The edit tool returns a result mapping exactly when every file
    operation of the request has the keys the schema requires of an entry
    of ["files"] and an absolute path; otherwise it raises. *)
Theorem edit_returns_iff_entries_match_schema (arguments : edit_arguments)
    (files : list FileOperation) (items : json) (w : world) :
  schema_items "files" edit_contents_handler_inputSchema = Some items ->
  ea_files arguments = Some files ->
  (exists results, (edit_run_tool editor arguments w).1 = inr results)
  <-> Forall (fun op =>
                forallb (operation_has_key op) (schema_required items) = true
                /\ exists p, fo_path op = Some p /\ isabs p = true)
        files.
Proof.
  intros Hitems Hfiles. vm_compute in Hitems. injection Hitems as <-.
  change (schema_required _) with ["path"; "file_hash"; "patches"].
  rewrite (edit_run_tool_loop editor _ _ _ Hfiles). unfold try_except.
  assert (Forall (fun op =>
                    forallb (operation_has_key op) ["path"; "file_hash"; "patches"] = true
                    /\ exists p, fo_path op = Some p /\ isabs p = true) files
          <-> forallb well_formed files = true) as ->.
  { rewrite forallb_forall, Forall_forall.
    split; intros H op Hin.
    - apply well_formed_keys, H. by apply list_elem_of_In.
    - apply well_formed_keys, H. by apply list_elem_of_In. }
  destruct (forallb well_formed files) eqn:Hwf.
  - pose proof (edit_loop_batch editor arguments files ∅ w Hwf) as [H1 _].
    destruct (edit_loop editor arguments files ∅ w) as [[e|r] w']; [done|].
    split; [done|]. intros _. by eexists.
  - destruct (edit_loop_ill_formed editor arguments files ∅ w Hwf) as [msg H].
    destruct (edit_loop editor arguments files ∅ w) as [[e|r] w']; [|done].
    split; [|done]. by intros [? ?].
Qed.

End Defaults.

Section EditTouches.
Context {RM : Type} (editor : TextEditor RM).

Lemma touches_only_mono (paths more : list string) (ev : event) :
  (forall p, p ∈ paths -> p ∈ more) -> touches_only paths ev -> touches_only more ev.
Proof.
  intros Hsub. destruct ev as [p|p [enc|]|p h ps enc|fs enc]; simpl; try done.
  - intros [Hin Habs]. split; [by apply Hsub|done].
  - intros [Hin Habs]. split; [by apply Hsub|done].
Qed.

Lemma edit_one_events (arguments : edit_arguments) (op : FileOperation)
    (path file_hash : string) (patches : list pydict)
    (results : gmap string pydict) (w : world) :
  fo_path op = Some path -> isabs path = true ->
  exists new,
    trace (edit_one editor arguments op path file_hash patches results w).2
    = (trace w ++ new)%list
    /\ Forall (touches_only [path]) new.
Proof.
  intros Hp Habs. unfold edit_one, try_except. rewrite Hp.
  assert (path ∈ [path]) as Hin by apply list_elem_of_here.
  destruct patches as [|p ps].
  { exists []. simpl. by rewrite app_nil_r. }
  unfold mbind, M_bind, edit_file_contents, read_file_contents.
  destruct (editor_edit_file_contents editor (disk w) path file_hash (p :: ps) _)
    as [[e|result] d']; simpl.
  - destruct (editor_read_file_contents editor d' path None)
      as [e'|[[[[[? ?] ?] h] ?] ?]]; simpl;
      (eexists [_; _]; split; [by rewrite <- app_assoc|];
       by repeat constructor).
  - eexists [_]. split; [done|]. by repeat constructor.
Qed.

Lemma edit_loop_events (arguments : edit_arguments) (files : list FileOperation)
    (results : gmap string pydict) (w : world) :
  exists new,
    trace (edit_loop editor arguments files results w).2 = (trace w ++ new)%list
    /\ Forall (touches_only (omap fo_path files)) new.
Proof.
  revert results w. induction files as [|op rest IH]; intros results w.
  { exists []. simpl. by rewrite app_nil_r. }
  simpl.
  destruct (fo_path op) as [path|] eqn:Hp;
    [|exists []; simpl; by rewrite app_nil_r].
  destruct (fo_file_hash op) as [file_hash|];
    [|exists []; simpl; by rewrite app_nil_r].
  destruct (fo_patches op) as [patches|];
    [|exists []; simpl; by rewrite app_nil_r].
  destruct (isabs path) eqn:Habs; simpl;
    [|exists []; simpl; by rewrite app_nil_r].
  destruct (edit_one_events arguments op path file_hash patches results w Hp Habs)
    as (new1 & Htrace1 & Hnew1).
  unfold mbind, M_bind.
  destruct (edit_one editor arguments op path file_hash patches results w)
    as [[e|results1] w1]; simpl in Htrace1.
  - exists new1. split; [done|].
    eapply Forall_impl; [exact Hnew1|]. intros ev. apply touches_only_mono.
    intros q ->%list_elem_of_singleton. apply list_elem_of_here.
  - destruct (IH results1 w1) as (new2 & Htrace2 & Hnew2).
    exists (new1 ++ new2)%list. split.
    + by rewrite Htrace2, Htrace1, app_assoc.
    + apply Forall_app. split.
      * eapply Forall_impl; [exact Hnew1|]. intros ev. apply touches_only_mono.
        intros q ->%list_elem_of_singleton. apply list_elem_of_here.
      * eapply Forall_impl; [exact Hnew2|]. intros ev. apply touches_only_mono.
        intros q Hq. by apply list_elem_of_further.
Qed.

(** X19.  Whatever the request and the editor, the edit tool reaches for
    the disk only through the editor and only for paths of the request's
    file operations, absolute ones: every call it adds to the trace is an
    edit of such a path or the read (without encoding) that follows a
    failed edit.  It never asks whether a file exists and never reads
    ranges. *)
Theorem edit_touches_only_request_paths (arguments : edit_arguments) (w : world) :
  Forall (touches_only (omap fo_path (default [] (ea_files arguments))))
    (drop (length (trace w)) (trace (edit_run_tool editor arguments w).2)).
Proof.
  unfold edit_run_tool, try_except.
  destruct (ea_files arguments) as [files|]; simpl;
    [|rewrite drop_all; constructor].
  destruct (length files =? 0)%nat; simpl; [rewrite drop_all; constructor|].
  destruct (edit_loop_events arguments files ∅ w) as (new & Htrace & Hnew).
  destruct (edit_loop editor arguments files ∅ w) as [[e|r] w']; simpl in *;
    by rewrite Htrace, new_events.
Qed.

End EditTouches.

(** ** Instances of the further properties *)

Lemma get_rejects_relative_path_witness :
  get_run_tool Sample.spec_editor
    {| ga_files := Some [Requests.read_f; Requests.read_relative; Requests.read_f];
       ga_encoding := None |}
    Sample.world0
  = (inl (RuntimeError "Error processing request: File path must be absolute: rel.txt"),
     Sample.world0).
Proof.
  apply (get_rejects_relative_path Sample.spec_editor
           {| ga_files := Some [Requests.read_f; Requests.read_relative; Requests.read_f];
              ga_encoding := None |}
           [Requests.read_f] [Requests.read_f] Requests.read_relative "rel.txt"
           Sample.world0 eq_refl).
  - constructor; [|constructor]. exists "/f.txt". by split.
  - reflexivity.
  - reflexivity.
Defined.

Lemma get_reports_missing_file_path_witness :
  get_run_tool Sample.spec_editor
    {| ga_files := Some [Requests.read_f; Requests.read_nowhere];
       ga_encoding := None |}
    Sample.world0
  = (inl (RuntimeError "Missing required argument: ''file_path''"), Sample.world0).
Proof.
  apply (get_reports_missing_file_path Sample.spec_editor
           {| ga_files := Some [Requests.read_f; Requests.read_nowhere];
              ga_encoding := None |}
           [Requests.read_f] [] Requests.read_nowhere Sample.world0 eq_refl).
  - constructor; [|constructor]. exists "/f.txt". by split.
  - reflexivity.
Defined.

Lemma get_is_one_editor_call_witness :
  (get_run_tool Requests.undecodable_editor
     {| ga_files := Some [Requests.read_f]; ga_encoding := Some "latin-1" |}
     Sample.world0)
  = (inl (RuntimeError "Error processing request: cannot decode"),
     log (ReadMultipleRanges [Requests.read_f] "latin-1") Sample.world0).
Proof.
  apply (get_is_one_editor_call Requests.undecodable_editor
           {| ga_files := Some [Requests.read_f]; ga_encoding := Some "latin-1" |}
           [Requests.read_f] Sample.world0 eq_refl).
  constructor; [|constructor]. exists "/f.txt". by split.
Defined.

Lemma handlers_raise_only_RuntimeError_witness :
  exists cause,
    RuntimeError "Error processing request: Missing required argument: files"
    = RuntimeError ("Error processing request: " +:+ str cause).
Proof.
  apply (proj1 (proj2 (handlers_raise_only_RuntimeError Sample.spec_editor
                         Sample.world0
                         (RuntimeError
                            "Error processing request: Missing required argument: files")))
           {| ea_files := None; ea_encoding := None |}).
  reflexivity.
Defined.

Lemma edit_aborts_at_first_failed_check_witness :
  let out := edit_run_tool Sample.spec_editor Sample.late_relative_request
               Sample.world0 in
  out.1 = inl (RuntimeError
                 "Error processing request: File path must be absolute: rel.txt")
  /\ disk out.2 = {[ "/f.txt" := Sample.aBc ]}.
Proof.
  destruct (edit_aborts_at_first_failed_check Sample.spec_editor
              Sample.late_relative_request [Requests.edit_f] []
              Requests.edit_relative "File path must be absolute: rel.txt"
              Sample.world0 eq_refl eq_refl eq_refl) as (Hout & _ & Hdisk).
  split; [exact Hout|]. rewrite Hdisk. by vm_compute.
Defined.

Lemma edit_calls_follow_request_witness :
  edit_calls (trace (edit_run_tool Sample.read_only_editor
                       {| ea_files := Some
                            [ Requests.edit_f;
                              {| fo_path := Some "/g.txt"; fo_file_hash := Some "";
                                 fo_patches := Some [] |};
                              Requests.edit_f ];
                          ea_encoding := Some "latin-1" |}
                       Sample.world0).2)
  = [EditFileContents "/f.txt" (SpecEditor.content_hash Sample.abc)
       [Sample.patch_B] "latin-1";
     EditFileContents "/f.txt" (SpecEditor.content_hash Sample.abc)
       [Sample.patch_B] "latin-1"].
Proof.
  apply (edit_calls_follow_request Sample.read_only_editor
           {| ea_files := Some
                [ Requests.edit_f;
                  {| fo_path := Some "/g.txt"; fo_file_hash := Some "";
                     fo_patches := Some [] |};
                  Requests.edit_f ];
              ea_encoding := Some "latin-1" |} _ Sample.world0 eq_refl).
  reflexivity.
Defined.

Lemma edit_result_keys_witness :
  dom ({[ "/f.txt" := SpecEditor.ok_result (SpecEditor.content_hash Sample.aBc) ]}
         : gmap string pydict)
  = list_to_set [ "/f.txt" ].
Proof.
  apply (edit_result_keys Sample.spec_editor Sample.replace_request
           [Requests.edit_f]
           {[ "/f.txt" := SpecEditor.ok_result (SpecEditor.content_hash Sample.aBc) ]}
           Sample.world0 eq_refl).
  by vm_compute.
Defined.

Lemma single_file_tools_reject_relative_path_witness :
  create_run_tool Sample.spec_editor
    {| ca_path := Some "rel.txt"; ca_contents := Some "x"; ca_encoding := None |}
    Sample.world0
  = (inl (RuntimeError "Error processing request: File path must be absolute: rel.txt"),
     Sample.world0).
Proof.
  apply (proj1 (single_file_tools_reject_relative_path Sample.spec_editor
                  "rel.txt" Sample.world0 eq_refl)
           {| ca_path := Some "rel.txt"; ca_contents := Some "x"; ca_encoding := None |}
           "x");
    reflexivity.
Defined.

Lemma append_and_delete_need_the_file_witness :
  delete_run_tool Sample.spec_editor
    {| da_file_path := Some "/none.txt"; da_file_hash := Some "";
       da_ranges := Some []; da_encoding := None |}
    Sample.world0
  = (inl (RuntimeError "Error processing request: File does not exist: /none.txt"),
     log (OsPathExists "/none.txt") Sample.world0).
Proof.
  apply (proj2 (append_and_delete_need_the_file Sample.spec_editor
                  "/none.txt" Sample.world0 eq_refl eq_refl)
           {| da_file_path := Some "/none.txt"; da_file_hash := Some "";
              da_ranges := Some []; da_encoding := None |} "" []);
    reflexivity.
Defined.

Lemma append_read_failure_witness :
  append_run_tool Requests.undecodable_editor Requests.append_d Sample.world0
  = (inl (RuntimeError "Error processing request: cannot decode /f.txt"),
     log (ReadFileContents "/f.txt" (Some "utf-8"))
       (log (OsPathExists "/f.txt") Sample.world0)).
Proof.
  apply (append_read_failure Requests.undecodable_editor Requests.append_d
           "/f.txt" "d" (SpecEditor.content_hash Sample.abc)
           (EditorError "UnicodeDecodeError" "cannot decode /f.txt") Sample.world0
           eq_refl eq_refl eq_refl eq_refl (ex_intro _ Sample.abc eq_refl) eq_refl).
Defined.


Lemma delete_edit_call_shape_witness :
  exists ranges : list pydict,
    da_ranges Requests.delete_2 = Some ranges
    /\ Forall2
         (fun r patch =>
            dom patch = list_to_set ["start"; "end"; "contents"; "range_hash"]
            /\ patch !! "contents" = Some (PyStr "")
            /\ patch !! "start" = r !! "start" /\ patch !! "end" = r !! "end"
            /\ patch !! "range_hash" = r !! "range_hash")
         ranges
         [make_patch (PyInt 2) (PyInt 2) (PyStr "")
            (PyStr (SpecEditor.content_hash ("b" +:+ LF)))].
Proof.
  assert (EditFileContents "/f.txt" (SpecEditor.content_hash Sample.abc)
            [make_patch (PyInt 2) (PyInt 2) (PyStr "")
               (PyStr (SpecEditor.content_hash ("b" +:+ LF)))] "utf-8"
          ∈ drop (length (trace Sample.world0))
              (trace (delete_run_tool Sample.spec_editor Requests.delete_2
                        Sample.world0).2)) as Hin.
  { vm_compute. apply list_elem_of_further. apply list_elem_of_here. }
  exact (proj2 (proj2 (proj2 (proj2 (proj2
           (delete_edit_call_shape Sample.spec_editor Requests.delete_2
              Sample.world0 _ _ _ _ Hin)))))).
Defined.

Lemma create_edit_call_shape_witness :
  disk Sample.world0 !! "/new.txt" = None
  /\ exists contents : string,
       ca_contents Requests.create_new = Some contents
       /\ [make_patch (PyInt 1) PyNone (PyStr ("hello" +:+ LF)) (PyStr "")]
          = [make_patch (PyInt 1) PyNone (PyStr contents) (PyStr "")].
Proof.
  assert (EditFileContents "/new.txt" ""
            [make_patch (PyInt 1) PyNone (PyStr ("hello" +:+ LF)) (PyStr "")] "utf-8"
          ∈ drop (length (trace Sample.world0))
              (trace (create_run_tool Sample.spec_editor Requests.create_new
                        Sample.world0).2)) as Hin.
  { vm_compute. apply list_elem_of_further. apply list_elem_of_here. }
  exact (proj2 (proj2 (proj2 (proj2
           (create_edit_call_shape Sample.spec_editor Requests.create_new
              Sample.world0 _ _ _ _ Hin))))).
Defined.

Lemma call_tool_unknown_name_witness :
  call_tool Sample.spec_editor "remove_text_file" Requests.raw_append_d Sample.world0
  = (inl (ValueError "Unknown tool: remove_text_file"), Sample.world0).
Proof.
  apply (call_tool_unknown_name Sample.spec_editor "remove_text_file").
  rewrite tool_names_eq. intros Hin.
  repeat (apply elem_of_cons in Hin as [Hin|Hin]; [discriminate Hin|]).
  by apply elem_of_nil in Hin.
Defined.

Lemma call_tool_known_name_failure_witness :
  (exists cause,
     RuntimeError
       "Error executing command: Error processing request: Missing required argument: contents"
     = RuntimeError ("Error executing command: "
                     +:+ "Error processing request: " +:+ str cause))
  \/ (exists key,
        RuntimeError
          "Error executing command: Error processing request: Missing required argument: contents"
        = RuntimeError ("Error executing command: "
                        +:+ "Missing required argument: '"
                        +:+ str (KeyError key) +:+ "'")).
Proof.
  apply (call_tool_known_name_failure Sample.spec_editor create_file_handler_name
           Requests.only_relative_path Sample.world0).
  - rewrite tool_names_eq. do 2 apply list_elem_of_further. apply list_elem_of_here.
  - reflexivity.
Defined.

Lemma required_keys_are_enforced_witness :
  exists msg,
    call_tool Sample.spec_editor create_file_handler_name
      Requests.only_relative_path Sample.world0
    = (inl (RuntimeError msg), Sample.world0).
Proof.
  apply (required_keys_are_enforced Sample.spec_editor
           create_file_handler_get_tool_description "contents"
           Requests.only_relative_path Sample.world0).
  - unfold list_tools. do 2 apply list_elem_of_further. apply list_elem_of_here.
  - vm_compute. apply list_elem_of_further. apply list_elem_of_here.
  - reflexivity.
Defined.

Lemma omitted_encoding_is_declared_default_witness :
  append_file_handler_get_tool_description ∈ list_tools
  /\ schema_default "encoding" append_file_handler_inputSchema = Some "utf-8"
  /\ call_tool Sample.spec_editor append_file_handler_name
       (with_encoding None Requests.raw_append_d) Sample.world0
     = call_tool Sample.spec_editor append_file_handler_name
         (with_encoding (Some "utf-8") Requests.raw_append_d) Sample.world0.
Proof.
  assert (append_file_handler_get_tool_description ∈ list_tools) as Htool.
  { unfold list_tools. do 3 apply list_elem_of_further. apply list_elem_of_here. }
  split; [exact Htool|].
  destruct (omitted_encoding_is_declared_default Sample.spec_editor
              append_file_handler_get_tool_description Htool) as [Hdeclared Hcall].
  split; [exact Hdeclared|].
  exact (Hcall Requests.raw_append_d Sample.world0).
Defined.

Lemma edit_returns_iff_entries_match_schema_witness :
  exists results,
    (edit_run_tool Sample.spec_editor Sample.replace_request Sample.world0).1
    = inr results.
Proof.
  apply (proj2 (edit_returns_iff_entries_match_schema Sample.spec_editor
                  Sample.replace_request [Requests.edit_f] _
                  Sample.world0 eq_refl eq_refl)).
  constructor; [|constructor]. split; [reflexivity|]. exists "/f.txt". by split.
Defined.
